(** * XPMailer: the mailer class of xp-mailer, embedded and verified

    The class is a thin wrapper around a mail transport.  It is written in
    JavaScript on top of two libraries that are not part of the repository:
    expandjs (the [XP] helpers and the [XP.Class] property machinery) and
    nodemailer (the transport).  The development below gives

    - a small model of the JavaScript values and objects the class touches,
    - the [XP] helpers the class calls, as expandjs documents them,
    - a monad for the statements of the class (object store, the instance,
      the calls made to the outside, early [return] and [throw]),
    - the class itself, method by method and property by property,
    - the theorems about it. *)

From stdpp Require Import gmap strings list fin_maps.
From Stdlib Require Import ZArith Ascii.

Local Open Scope Z_scope.

(** ** JavaScript values *)

(** A number is NaN, an infinity, or the dyadic rational [m * 2^e]. *)
Inductive number :=
| NaN
| Infinity (negative : bool)
| Dyadic (m e : Z).

(** The errors the class and its libraries create.  [ValidationError name
    type] is [new XP.ValidationError(name, type)] of expandjs, "parameterized
    by (fieldPath, expectedType)"; [XPError code message] is
    [XP.error(code, message)]; [TypeError] is the engine's error for a
    property read on [undefined] or [null]. *)
Inductive error :=
| ValidationError (name type : string)
| XPError (code : Z) (message : string)
| TypeError.

Abbreviation loc := positive.

(** Objects, arrays and functions are references into the object store; an
    error instance is identified by its kind and fields. *)
Inductive value :=
| VUndefined
| VNull
| VBool (b : bool)
| VNum (n : number)
| VStr (s : string)
| VErr (e : error)
| VRef (l : loc).

(** What [Object.prototype.toString] tells apart: plain objects and class
    instances, arrays, functions, and the other built-in kinds (dates,
    buffers, ...). *)
Inductive kind := KObject | KArray | KFunction | KExotic.

Record cell := Cell { cell_kind : kind; props : gmap string value }.

#[global] Instance number_eq_dec : EqDecision number.
Proof. solve_decision. Defined.
#[global] Instance error_eq_dec : EqDecision error.
Proof. solve_decision. Defined.
#[global] Instance value_eq_dec : EqDecision value.
Proof. solve_decision. Defined.
#[global] Instance kind_eq_dec : EqDecision kind.
Proof. solve_decision. Defined.

(** [ToBoolean]. *)
Definition truthy (v : value) : bool :=
  match v with
  | VUndefined | VNull => false
  | VBool b => b
  | VNum NaN => false
  | VNum (Infinity _) => true
  | VNum (Dyadic m _) => negb (m =? 0)
  | VStr s => negb (String.eqb s "")
  | VErr _ | VRef _ => true
  end.

(** The kind of the object a value refers to, if it refers to one. *)
Definition kind_at (h : gmap loc cell) (v : value) : option kind :=
  match v with
  | VRef l => cell_kind <$> h !! l
  | _ => None
  end.

(** Own properties of the object a value refers to. *)
Definition props_at (h : gmap loc cell) (v : value) : gmap string value :=
  match v with
  | VRef l => from_option props ∅ (h !! l)
  | _ => ∅
  end.

(** The value read for the property [k] of [o]: [undefined] when absent. *)
Definition prop (h : gmap loc cell) (o : value) (k : string) : value :=
  default VUndefined (props_at h o !! k).

(** ** The expandjs helpers used by the class

    expandjs is a dependency; its sources are not among those of the
    repository.  The optional second argument of [isString] and [isInt] is
    [None] when the call site omits it. *)
Module XP.

(** Modelled from the spec: [XP.isVoid] of expandjs, the test behind "if
    present" and "missing": [value] is [null] or [undefined]. *)
Definition isVoid (v : value) : bool :=
  match v with
  | VUndefined | VNull => true
  | _ => false
  end.

(** Modelled from the spec: [XP.isDefined] of expandjs, the test behind
    "once a field is assigned, subsequent assignment attempts are ignored"
    and "already holds a defined value": [value] is not [undefined].  A
    [null], as the constructor assigns it to a property the record does not
    give, is a defined value. *)
Definition isDefined (v : value) : bool :=
  match v with
  | VUndefined => false
  | _ => true
  end.

(** Modelled from the spec: [XP.isString] of expandjs, the test behind
    "must be a string" and, with [notEmpty] true, "must be a non-empty
    string". *)
Definition isString (v : value) (notEmpty : option bool) : bool :=
  match v with
  | VStr s =>
      match notEmpty with
      | None => true
      | Some b => Bool.eqb b (negb (String.eqb s ""))
      end
  | _ => false
  end.

(** Modelled from the spec: [XP.isObject] of expandjs, the test behind
    "must be a structured object": an object that is not an array, a
    function or one of the other built-in kinds. *)
Definition isObject (h : gmap loc cell) (v : value) : bool :=
  bool_decide (kind_at h v = Some KObject).

(** Modelled from the spec: [XP.isArray] of expandjs, the test behind
    "must be an ordered sequence". *)
Definition isArray (h : gmap loc cell) (v : value) : bool :=
  bool_decide (kind_at h v = Some KArray).

(** Modelled from the spec: [XP.isInt] of expandjs, the test behind "port:
    integer": a finite number without fractional part, with [notNegative]
    true one that is not negative. *)
Definition isInt (v : value) (notNegative : option bool) : bool :=
  match v with
  | VNum (Dyadic m e) =>
      ((0 <=? e) || (m mod 2 ^ (- e) =? 0))
      && match notNegative with
         | None => true
         | Some b => Bool.eqb b (0 <=? m)
         end
  | _ => false
  end.

End XP.

(** ** The state the class runs in *)

(** An instance of the class.  [XP.Class] keeps the value of a declared
    property [p] in the slot [p_] of the instance; [options] is an ordinary
    property. *)
Record XPMailer := Mailer {
  options : value;
  auth_ : value;
  hostname_ : value;
  name_ : value;
  noreply_ : value;
  port_ : value;
  secure_ : value;
  tls_ : value;
  transporter_ : value
}.

(** The declared properties. *)
Inductive field :=
| auth | hostname | name | noreply | port | secure | tls | transporter.

#[global] Instance field_eq_dec : EqDecision field.
Proof. solve_decision. Defined.

Definition field_name (f : field) : string :=
  match f with
  | auth => "auth"
  | hostname => "hostname"
  | name => "name"
  | noreply => "noreply"
  | port => "port"
  | secure => "secure"
  | tls => "tls"
  | transporter => "transporter"
  end.

Definition slot (f : field) (m : XPMailer) : value :=
  match f with
  | auth => auth_ m
  | hostname => hostname_ m
  | name => name_ m
  | noreply => noreply_ m
  | port => port_ m
  | secure => secure_ m
  | tls => tls_ m
  | transporter => transporter_ m
  end.

Definition set_slot (f : field) (v : value) (m : XPMailer) : XPMailer :=
  match f with
  | auth => Mailer (options m) v (hostname_ m) (name_ m) (noreply_ m) (port_ m) (secure_ m) (tls_ m) (transporter_ m)
  | hostname => Mailer (options m) (auth_ m) v (name_ m) (noreply_ m) (port_ m) (secure_ m) (tls_ m) (transporter_ m)
  | name => Mailer (options m) (auth_ m) (hostname_ m) v (noreply_ m) (port_ m) (secure_ m) (tls_ m) (transporter_ m)
  | noreply => Mailer (options m) (auth_ m) (hostname_ m) (name_ m) v (port_ m) (secure_ m) (tls_ m) (transporter_ m)
  | port => Mailer (options m) (auth_ m) (hostname_ m) (name_ m) (noreply_ m) v (secure_ m) (tls_ m) (transporter_ m)
  | secure => Mailer (options m) (auth_ m) (hostname_ m) (name_ m) (noreply_ m) (port_ m) v (tls_ m) (transporter_ m)
  | tls => Mailer (options m) (auth_ m) (hostname_ m) (name_ m) (noreply_ m) (port_ m) (secure_ m) v (transporter_ m)
  | transporter => Mailer (options m) (auth_ m) (hostname_ m) (name_ m) (noreply_ m) (port_ m) (secure_ m) (tls_ m) v
  end.

(** Modelled from the spec: [options] is a property of XP.Class itself,
    whose code is not among the sources.  The spec has the constructor
    take "a non-null configuration record" and validate its fields, so
    after [this.options = record] the property is taken to answer the
    record given, and [this.options.auth] and the like read the fields of
    that record.  What XP.Class does besides (keep a copy of the record,
    merge it with an earlier one, stand in for a missing one) is not
    modelled. *)
Definition set_options (v : value) (m : XPMailer) : XPMailer :=
  Mailer v (auth_ m) (hostname_ m) (name_ m) (noreply_ m) (port_ m) (secure_ m) (tls_ m) (transporter_ m).

(** An instance before its constructor has run. *)
Definition blank : XPMailer :=
  Mailer VUndefined VUndefined VUndefined VUndefined VUndefined VUndefined
         VUndefined VUndefined VUndefined.

(** The calls the class makes to code outside itself, in order. *)
Inductive event :=
| Call (f : value) (args : list value)
| CreateTransport (transportOptions handle : value)
| SendMail (handle data callback : value).

Record world := World {
  heap : gmap loc cell;
  this : XPMailer;
  trace : list event
}.

(** How a statement ends: normally, by [return], or by [throw]. *)
Inductive completion (A : Type) :=
| Normal (a : A)
| Returned (v : value)
| Thrown (e : error).
Arguments Normal {A} a.
Arguments Returned {A} v.
Arguments Thrown {A} e.

Definition M (A : Type) : Type := world -> completion A * world.

#[global] Instance M_ret : MRet M := fun A a w => (Normal a, w).

#[global] Instance M_bind : MBind M := fun A B f m w =>
  match m w with
  | (Normal a, w') => f a w'
  | (Returned v, w') => (Returned v, w')
  | (Thrown e, w') => (Thrown e, w')
  end.

Definition throw {A} (e : error) : M A := fun w => (Thrown e, w).

(** [return;] *)
Definition Return {A} : M A := fun w => (Returned VUndefined, w).

Definition get_heap : M (gmap loc cell) := fun w => (Normal (heap w), w).

Definition put_heap (h : gmap loc cell) : M unit :=
  fun w => (Normal tt, World h (this w) (trace w)).

Definition get_this : M XPMailer := fun w => (Normal (this w), w).

Definition put_this (m : XPMailer) : M unit :=
  fun w => (Normal tt, World (heap w) m (trace w)).

Definition emit (e : event) : M unit :=
  fun w => (Normal tt, World (heap w) (this w) (trace w ++ [e])).

(** A function body run as a call: [return] ends the call, not the caller. *)
Definition function (body : M unit) : M value := fun w =>
  match body w with
  | (Normal _, w') => (Normal VUndefined, w')
  | (Returned v, w') => (Normal v, w')
  | (Thrown e, w') => (Thrown e, w')
  end.

(** *** Expressions *)

(** [new Object] with the given kind and properties, at a fresh address. *)
Definition alloc (c : cell) : M value :=
  h ← get_heap;
  let l := fresh (dom h) in
  put_heap (<[l := c]> h);;
  mret (VRef l).

(** [{k1: v1, ...}] *)
Definition object_literal (ps : list (string * value)) : M value :=
  alloc (Cell KObject (list_to_map ps)).

(** [o.k]: own property, [undefined] when absent; reading a property of
    [undefined] or [null] throws. *)
Definition get (o : M value) (k : string) : M value :=
  v ← o;
  if XP.isVoid v then throw TypeError
  else h ← get_heap; mret (prop h v k).

(** [o.k = x] on an ordinary property. *)
Definition put (o : value) (k : string) (x : value) : M unit :=
  if XP.isVoid o then throw TypeError
  else
    h ← get_heap;
    match o with
    | VRef l => put_heap (alter (fun c => Cell (cell_kind c) (<[k := x]> (props c))) l h)
    | _ => mret tt
    end.

(** [Object.assign(target, ...sources)]: own properties of each source are
    copied onto the target, later sources winning. *)
Definition Object_assign (target : value) (sources : list value) : M value :=
  h ← get_heap;
  match target with
  | VRef l =>
      put_heap (alter (fun c => Cell (cell_kind c)
                                     (foldl (fun acc s => props_at h s ∪ acc) (props c) sources)) l h);;
      mret target
  | _ => if XP.isVoid target then throw TypeError else mret target
  end.

Definition lit (v : value) : M value := mret v.

(** A string between double quotes. *)
Definition quoted (s : string) : string :=
  String "034"%char s +:+ String "034"%char "".

(** [!e] *)
Definition js_not (e : M value) : M value :=
  v ← e; mret (VBool (negb (truthy v))).

(** [e1 && e2] and [e1 || e2], evaluating [e2] only when needed. *)
Definition js_and (e1 e2 : M value) : M value :=
  v ← e1; if truthy v then e2 else mret v.

Definition js_or (e1 e2 : M value) : M value :=
  v ← e1; if truthy v then mret v else e2.

(** [c ? e1 : e2] *)
Definition js_cond (c e1 e2 : M value) : M value :=
  v ← c; if truthy v then e1 else e2.

(** [if (c) { s }] *)
Definition js_if (c : M value) (s : M unit) : M unit :=
  v ← c; if truthy v then s else mret tt.

(** [f(args)] for a function of the caller: the call is recorded. *)
Definition call (f : value) (args : list (M value)) : M unit :=
  vs ← mapM id args;
  emit (Call f vs).

(** The getter of a declared property: the slot. *)
Definition this_ (f : field) : M value :=
  m ← get_this; mret (slot f m).

(** Modelled from the spec: the getter of [options], see [set_options]. *)
Definition this_options : M value :=
  m ← get_this; mret (options m).

Definition new_ValidationError (nm ty : string) : M value :=
  mret (VErr (ValidationError nm ty)).

Definition XP_error (code : Z) (msg : string) : M value :=
  mret (VErr (XPError code msg)).

Definition XP_isVoid (e : M value) : M value :=
  v ← e; mret (VBool (XP.isVoid v)).

Definition XP_isDefined (e : M value) : M value :=
  v ← e; mret (VBool (XP.isDefined v)).

Definition XP_isString (e : M value) (notEmpty : option bool) : M value :=
  v ← e; mret (VBool (XP.isString v notEmpty)).

Definition XP_isInt (e : M value) (notNegative : option bool) : M value :=
  v ← e; mret (VBool (XP.isInt v notNegative)).

Definition XP_isObject (e : M value) : M value :=
  v ← e; h ← get_heap; mret (VBool (XP.isObject h v)).

Definition XP_isArray (e : M value) : M value :=
  v ← e; h ← get_heap; mret (VBool (XP.isArray h v)).

(** [Boolean(e)] *)
Definition Boolean (e : M value) : M value :=
  v ← e; mret (VBool (truthy v)).

(** [{k1: e1, ...}] with the property values evaluated in order. *)
Definition object_of (ps : list (string * M value)) : M value :=
  vs ← mapM (fun p => v ← p.2; mret (p.1, v)) ps;
  object_literal vs.

(** ** The libraries' side of the class *)

(** A declared property of an [XP.Class]: its [set] hook and its optional
    [validate] hook. *)
Record property := Property {
  set : value -> M value;
  validate : option (value -> M value)
}.

Definition type_name (v : value) : string :=
  match v with
  | VStr s => s
  | _ => ""
  end.

(** Modelled from the spec: the setter that [XP.Class] of expandjs installs
    for a declared property.  The value goes through [set]; [validate]
    answers [false] or the name of the expected type, in which case the
    assignment "fails with a ValidationError identifying the offending field
    name and expected type"; otherwise the result of [set] is stored in the
    slot. *)
Definition assign (descriptor : field -> property) (f : field) (e : M value) : M unit :=
  val ← e;
  post ← set (descriptor f) val;
  type ← match validate (descriptor f) with
         | Some check => check post
         | None => mret (VBool false)
         end;
  if truthy type then throw (ValidationError (field_name f) (type_name type))
  else m ← get_this; put_this (set_slot f post m).

(** Modelled from the spec: [createTransport(transportOptions)] of
    nodemailer, which makes the transport handle.  The handle is a new
    object that keeps the options it was made from. *)
Definition nodemailer_createTransport (transportOptions : M value) : M value :=
  o ← transportOptions;
  t ← alloc (Cell KObject {["options" := o]});
  emit (CreateTransport o t);;
  mret t.

(** Modelled from the spec: [handle.sendMail(data, callback)] of nodemailer.
    The message and the callback are handed to the transport, whose "result
    arrives via a later callback invocation". *)
Definition sendMail (handle data : M value) (callback : value) : M unit :=
  t ← handle;
  if XP.isVoid t then throw TypeError
  else d ← data; emit (SendMail t d callback).

(** ** The class (src/unnamed/part_000) *)

Definition descriptor (f : field) : property :=
  match f with
  | auth => Property
      (fun val => js_or (this_ auth) (lit val))
      (Some (fun val => js_and (js_not (XP_isObject (lit val))) (lit (VStr "Object"))))
  | hostname => Property
      (fun val => js_or (this_ hostname) (lit val))
      (Some (fun val => js_and (js_not (XP_isString (lit val) None)) (lit (VStr "string"))))
  | name => Property
      (fun val => js_cond (XP_isDefined (this_ name)) (this_ name) (lit val))
      (Some (fun val => js_and (js_and (js_not (XP_isVoid (lit val)))
                                       (js_not (XP_isString (lit val) None)))
                               (lit (VStr "string"))))
  | noreply => Property
      (fun val => js_cond (XP_isDefined (this_ noreply)) (this_ noreply) (lit val))
      (Some (fun val => js_and (js_and (js_not (XP_isVoid (lit val)))
                                       (js_not (XP_isString (lit val) None)))
                               (lit (VStr "string"))))
  | port => Property
      (fun val => js_cond (XP_isDefined (this_ port)) (this_ port) (lit val))
      (Some (fun val => js_and (js_and (js_not (XP_isVoid (lit val)))
                                       (js_not (XP_isInt (lit val) (Some true))))
                               (lit (VStr "number"))))
  | secure => Property
      (fun val => js_cond (XP_isDefined (this_ secure)) (this_ secure) (Boolean (lit val)))
      None
  | tls => Property
      (fun val => js_or (this_ tls) (lit val))
      (Some (fun val => js_and (js_and (js_not (XP_isVoid (lit val)))
                                       (js_not (XP_isObject (lit val))))
                               (lit (VStr "Object"))))
  | transporter => Property
      (fun val => js_or (this_ transporter) (lit val))
      (Some (fun val => js_and (js_not (XP_isObject (lit val))) (lit (VStr "Object"))))
  end.

Definition initialize (options : value) : M unit :=
  (* Setting *)
  (m ← get_this; put_this (set_options options m));;
  assign descriptor auth (get this_options "auth");;
  assign descriptor hostname (js_or (get this_options "hostname") (lit (VStr "localhost")));;
  assign descriptor name (js_or (get this_options "name") (lit VNull));;
  assign descriptor noreply (js_or (get this_options "noreply") (lit VNull));;
  assign descriptor port (js_or (get this_options "port") (lit VNull));;
  assign descriptor tls (js_or (get this_options "tls") (object_of []));;
  assign descriptor secure (js_or (get this_options "secure") (lit (VBool false)));;
  (* Adapting *)
  assign descriptor transporter
    (nodemailer_createTransport
       (object_of [("auth", this_ auth);
                   ("host", this_ hostname);
                   ("name", this_ name);
                   ("port", this_ port);
                   ("secure", this_ secure);
                   ("tls", this_ tls)])).

Definition send (mail attachments callback : value) : M unit :=
  (* Asserting *)
  js_if (js_not (XP_isObject (lit mail)))
    (call callback [new_ValidationError "mail" "Object"];; Return);;
  js_if (js_not (XP_isString (get (lit mail) "to") (Some true)))
    (call callback [new_ValidationError "mail.to" "string"];; Return);;
  js_if (js_and (js_not (XP_isVoid (get (lit mail) "from")))
                (js_not (XP_isString (get (lit mail) "from") (Some true))))
    (call callback [new_ValidationError "mail.from" "string"];; Return);;
  js_if (js_and (js_not (XP_isVoid (get (lit mail) "cc")))
                (js_not (XP_isString (get (lit mail) "cc") None)))
    (call callback [new_ValidationError "mail.cc" "string"];; Return);;
  js_if (js_and (js_not (XP_isVoid (get (lit mail) "bcc")))
                (js_not (XP_isString (get (lit mail) "bcc") None)))
    (call callback [new_ValidationError "mail.cc" "string"];; Return);;
  js_if (js_and (js_not (XP_isVoid (get (lit mail) "html")))
                (js_not (XP_isString (get (lit mail) "html") None)))
    (call callback [new_ValidationError "mail.html" "string"];; Return);;
  js_if (js_and (js_not (XP_isVoid (get (lit mail) "text")))
                (js_not (XP_isString (get (lit mail) "text") None)))
    (call callback [new_ValidationError "mail.text" "string"];; Return);;
  js_if (js_and (js_not (XP_isVoid (lit attachments)))
                (js_not (XP_isArray (lit attachments))))
    (call callback [new_ValidationError "attachments" "Array"];; Return);;
  js_if (js_and (js_not (get (lit mail) "from")) (js_not (this_ noreply)))
    (call callback [new_ValidationError "mail.from" "string"];; Return);;
  (* Preparing *)
  (v ← js_or (get (lit mail) "from") (this_ noreply); put mail "from" v);;
  (* Sending *)
  sendMail (this_ transporter)
    (target ← object_of [];
     source ← object_of [("attachments", lit attachments)];
     Object_assign target [mail; source])
    callback.

(** [new XPMailer(options)]: a blank instance on which the constructor
    runs. *)
Definition new_XPMailer (options : value) : M value :=
  put_this blank;;
  function (initialize options).

(** [mailer.send(mail, attachments, callback)] as a call. *)
Definition call_send (mail attachments callback : value) : M value :=
  function (send mail attachments callback).

(** ** The earlier class (src/lib/index.js)

    It declares the same properties except [noreply], demands [from] of
    every message, checks [from] before [to], and reports through
    [XP.error]. *)
Module lib_index.

(** [noreply] is not declared here: an ordinary property, never assigned by
    the class. *)
Definition descriptor (f : field) : property :=
  match f with
  | auth => Property
      (fun val => js_or (this_ auth) (lit val))
      (Some (fun val => js_and (js_not (XP_isObject (lit val))) (lit (VStr "Object"))))
  | hostname => Property
      (fun val => js_or (this_ hostname) (lit val))
      (Some (fun val => js_and (js_not (XP_isString (lit val) None)) (lit (VStr "string"))))
  | name => Property
      (fun val => js_cond (XP_isDefined (this_ name)) (this_ name) (lit val))
      (Some (fun val => js_and (js_and (js_not (XP_isVoid (lit val)))
                                       (js_not (XP_isString (lit val) None)))
                               (lit (VStr "string"))))
  | noreply => Property (fun val => lit val) None
  | port => Property
      (fun val => js_cond (XP_isDefined (this_ port)) (this_ port) (lit val))
      (Some (fun val => js_and (js_and (js_not (XP_isVoid (lit val)))
                                       (js_not (XP_isInt (lit val) (Some true))))
                               (lit (VStr "number"))))
  | secure => Property
      (fun val => js_cond (XP_isDefined (this_ secure)) (this_ secure)
                          (js_not (js_not (lit val))))
      None
  | tls => Property
      (fun val => js_or (this_ tls) (lit val))
      (Some (fun val => js_and (js_and (js_not (XP_isVoid (lit val)))
                                       (js_not (XP_isObject (lit val))))
                               (lit (VStr "Object"))))
  | transporter => Property
      (fun val => js_or (this_ transporter) (lit val))
      (Some (fun val => js_and (js_not (XP_isObject (lit val))) (lit (VStr "Object"))))
  end.

Definition initialize (options : value) : M unit :=
  (* Setting *)
  (m ← get_this; put_this (set_options options m));;
  assign descriptor auth (get this_options "auth");;
  assign descriptor hostname (js_or (get this_options "hostname") (lit (VStr "localhost")));;
  assign descriptor name (js_or (get this_options "name") (lit VNull));;
  assign descriptor port (js_or (get this_options "port") (lit VNull));;
  assign descriptor tls (js_or (get this_options "tls") (object_of []));;
  assign descriptor secure (js_or (get this_options "secure") (lit (VBool false)));;
  (* Adapting *)
  assign descriptor transporter
    (nodemailer_createTransport
       (object_of [("auth", this_ auth);
                   ("host", this_ hostname);
                   ("name", this_ name);
                   ("port", this_ port);
                   ("secure", this_ secure);
                   ("tls", this_ tls)])).

Definition send (mail attachments callback : value) : M unit :=
  (* Asserting *)
  js_if (js_not (XP_isObject (lit mail)))
    (call callback [XP_error 500 (quoted "email" +:+ " must be Object.")];; Return);;
  js_if (js_not (XP_isString (get (lit mail) "from") (Some true)))
    (call callback [XP_error 500 (quoted "email.from" +:+ " must be string.")];; Return);;
  js_if (js_not (XP_isString (get (lit mail) "to") (Some true)))
    (call callback [XP_error 500 (quoted "email.to" +:+ " must be string.")];; Return);;
  js_if (js_and (js_not (XP_isVoid (get (lit mail) "cc")))
                (js_not (XP_isString (get (lit mail) "cc") None)))
    (call callback [XP_error 500 (quoted "email.cc" +:+ " must be string.")];; Return);;
  js_if (js_and (js_not (XP_isVoid (get (lit mail) "bcc")))
                (js_not (XP_isString (get (lit mail) "bcc") None)))
    (call callback [XP_error 500 (quoted "email.cc" +:+ " must be string.")];; Return);;
  js_if (js_and (js_not (XP_isVoid (get (lit mail) "html")))
                (js_not (XP_isString (get (lit mail) "html") None)))
    (call callback [XP_error 500 (quoted "email.html" +:+ " must be string.")];; Return);;
  js_if (js_and (js_not (XP_isVoid (get (lit mail) "text")))
                (js_not (XP_isString (get (lit mail) "text") None)))
    (call callback [XP_error 500 (quoted "email.text" +:+ " must be string.")];; Return);;
  js_if (js_and (js_not (XP_isVoid (lit attachments)))
                (js_not (XP_isArray (lit attachments))))
    (call callback [XP_error 500 (quoted "attachments" +:+ " must be Array.")];; Return);;
  (* Sending *)
  sendMail (this_ transporter)
    (target ← object_of [];
     source ← object_of [("attachments", lit attachments)];
     Object_assign target [mail; source])
    callback.

End lib_index.

(** ** Notions used by the statements *)

(** An expression that evaluates to [a] in [w] without changing anything. *)
Definition pure {A} (e : M A) (w : world) (a : A) : Prop := e w = (Normal a, w).

(** The store [h'] still has every object of [h], of the same kind.  Code
    may add objects and change properties, not turn an object into an
    array. *)
Definition kinds_kept (h h' : gmap loc cell) : Prop :=
  forall l c, h !! l = Some c -> exists c', h' !! l = Some c' /\ cell_kind c' = cell_kind c.

(** A statement that leaves the instance alone and keeps the kinds of the
    store, however it ends. *)
Definition outside {A} (e : M A) : Prop :=
  forall w, this (e w).2 = this w /\ kinds_kept (heap w) (heap (e w).2).

(** The configured default sender: the [noreply] address, when there is
    one. *)
Definition default_sender (m : XPMailer) : option string :=
  match noreply_ m with
  | VStr s => if String.eqb s "" then None else Some s
  | _ => None
  end.

Definition non_empty_string (v : value) : bool :=
  match v with
  | VStr s => negb (String.eqb s "")
  | _ => false
  end.

Definition is_boolean (v : value) : bool :=
  match v with
  | VBool _ => true
  | _ => false
  end.

(** The class invariant: what the [validate] hooks and the defaults of
    [initialize] leave in the slots of a constructed instance. *)
Definition invariant (h : gmap loc cell) (m : XPMailer) : bool :=
  XP.isObject h (auth_ m)
  && non_empty_string (hostname_ m)
  && (XP.isVoid (name_ m) || XP.isString (name_ m) None)
  && (XP.isVoid (noreply_ m) || XP.isString (noreply_ m) None)
  && (XP.isVoid (port_ m) || XP.isInt (port_ m) (Some true))
  && is_boolean (secure_ m)
  && XP.isObject h (tls_ m)
  && XP.isObject h (transporter_ m).

Definition constructed (w : world) : Prop :=
  invariant (heap w) (this w) = true.

(** The slots of [m] that hold a defined value hold the same in [m']. *)
Definition frozen (m m' : XPMailer) : Prop :=
  forall f, XP.isDefined (slot f m) = true -> slot f m' = slot f m.

(** From a constructed instance to a constructed instance, the objects of
    the store kept and the defined slots untouched. *)
Definition evolves (w w' : world) : Prop :=
  constructed w' /\ kinds_kept (heap w) (heap w') /\ frozen (this w) (this w').

(** Code that takes a constructed instance along [evolves], however it
    ends. *)
Definition steady {A} (c : M A) : Prop :=
  forall w, constructed w -> evolves w (c w).2.

(** The states an instance can be in: made by the constructor, then used
    through assignments to its properties, further runs of [initialize],
    calls of [send], and whatever other code does to the store. *)
Inductive reachable : world -> Prop :=
| reach_new w0 opts v w :
    new_XPMailer opts w0 = (Normal v, w) -> reachable w
| reach_assign w f val r w' :
    reachable w -> assign descriptor f (lit val) w = (r, w') -> reachable w'
| reach_initialize w opts r w' :
    reachable w -> function (initialize opts) w = (r, w') -> reachable w'
| reach_send w mail attachments callback r w' :
    reachable w -> call_send mail attachments callback w = (r, w') -> reachable w'
| reach_store w h' :
    reachable w -> kinds_kept (heap w) h' -> reachable (World h' (this w) (trace w)).

(** *** Assignment to a declared property, in closed form *)

(** What the [set] hook of [f] answers for [val] on the instance [m]. *)
Definition stored (f : field) (m : XPMailer) (val : value) : value :=
  match f with
  | auth | hostname | tls | transporter => if truthy (slot f m) then slot f m else val
  | name | noreply | port => if XP.isDefined (slot f m) then slot f m else val
  | secure => if XP.isDefined (slot f m) then slot f m else VBool (truthy val)
  end.

(** What the [validate] hook of [f] accepts, and the name of the type it
    answers when it does not. *)
Definition fine (f : field) (h : gmap loc cell) (val : value) : bool :=
  match f with
  | auth | transporter => XP.isObject h val
  | hostname => XP.isString val None
  | name | noreply => XP.isVoid val || XP.isString val None
  | port => XP.isVoid val || XP.isInt val (Some true)
  | secure => true
  | tls => XP.isVoid val || XP.isObject h val
  end.

Definition wanted (f : field) : string :=
  match f with
  | auth | tls | transporter => "Object"
  | hostname | name | noreply => "string"
  | port => "number"
  | secure => ""
  end.

(** [v || d] *)
Definition or_default (v d : value) : value := if truthy v then v else d.

(** The state after [f] has been assigned the result of [set]. *)
Definition assigned (f : field) (val : value) (w : world) : world :=
  World (heap w) (set_slot f (stored f (this w) val) (this w)) (trace w).

(** *** The constructor, in closed form *)

(** The store and the value of [options.tls || {}]. *)
Definition tls_store (h : gmap loc cell) (given : value) : gmap loc cell :=
  if truthy given then h else <[fresh (dom h) := Cell KObject ∅]> h.

Definition tls_value (h : gmap loc cell) (given : value) : value :=
  if truthy given then given else VRef (fresh (dom h)).

(** The options handed to [createTransport], where they and the handle are
    put, and the store with both. *)
Definition transport_options (m : XPMailer) : gmap string value :=
  list_to_map [("auth", auth_ m); ("host", hostname_ m); ("name", name_ m);
               ("port", port_ m); ("secure", secure_ m); ("tls", tls_ m)].

Definition options_loc (h : gmap loc cell) : loc := fresh (dom h).

Definition store_options (h : gmap loc cell) (m : XPMailer) : gmap loc cell :=
  <[options_loc h := Cell KObject (transport_options m)]> h.

Definition handle_loc (h : gmap loc cell) (m : XPMailer) : loc :=
  fresh (dom (store_options h m)).

Definition store_handle (h : gmap loc cell) (m : XPMailer) : gmap loc cell :=
  <[handle_loc h m := Cell KObject {["options" := VRef (options_loc h)]}]> (store_options h m).

(** The instance that [initialize] builds from a record, up to the handle,
    and the state the constructor ends in. *)
Definition configured (h : gmap loc cell) (opts : value) : XPMailer :=
  Mailer opts
         (prop h opts "auth")
         (or_default (prop h opts "hostname") (VStr "localhost"))
         (or_default (prop h opts "name") VNull)
         (or_default (prop h opts "noreply") VNull)
         (or_default (prop h opts "port") VNull)
         (VBool (truthy (prop h opts "secure")))
         (tls_value h (prop h opts "tls"))
         VUndefined.

Definition made (opts : value) (w0 : world) : world :=
  let h := tls_store (heap w0) (prop (heap w0) opts "tls") in
  let m := configured (heap w0) opts in
  World (store_handle h m)
        (set_slot transporter (VRef (handle_loc h m)) m)
        (trace w0 ++ [CreateTransport (VRef (options_loc h)) (VRef (handle_loc h m))]).

(** The records the constructor takes without throwing: [auth] an object;
    [hostname], [name] and [noreply], when given and not falsy, strings;
    [port], when given and not zero, an integer that is not negative;
    [tls], when given and not falsy, an object. *)
Definition acceptable (h : gmap loc cell) (opts : value) : bool :=
  negb (XP.isVoid opts)
  && fine auth h (prop h opts "auth")
  && fine hostname h (or_default (prop h opts "hostname") (VStr "localhost"))
  && fine name h (or_default (prop h opts "name") VNull)
  && fine noreply h (or_default (prop h opts "noreply") VNull)
  && fine port h (or_default (prop h opts "port") VNull)
  && (negb (truthy (prop h opts "tls")) || XP.isObject h (prop h opts "tls")).

(** *** The checks of [send], one by one *)

Inductive check :=
| CMessage        (* the message is a structured object *)
| CTo             (* to is a non-empty string *)
| CFrom           (* from is a non-empty string, or is missing and a default sender is configured *)
| CFromShape      (* from, if present, is a non-empty string *)
| CFromPresent    (* from is there, or a default sender is configured *)
| CCc | CBcc | CHtml | CText   (* the field, if present, is a string *)
| CAttachments.   (* attachments, if present, is an ordered sequence *)

#[global] Instance check_eq_dec : EqDecision check.
Proof. solve_decision. Defined.

(** A field that is present holds a string. *)
Definition optional_string (v : value) : bool :=
  XP.isVoid v || XP.isString v None.

(** What each check demands of the input of [send]. *)
Definition holds (c : check) (h : gmap loc cell) (m : XPMailer) (mail attachments : value) : bool :=
  match c with
  | CMessage => XP.isObject h mail
  | CTo => non_empty_string (prop h mail "to")
  | CFrom => non_empty_string (prop h mail "from")
             || (XP.isVoid (prop h mail "from") && bool_decide (is_Some (default_sender m)))
  | CFromShape => XP.isVoid (prop h mail "from") || non_empty_string (prop h mail "from")
  | CFromPresent => negb (XP.isVoid (prop h mail "from"))
                    || bool_decide (is_Some (default_sender m))
  | CCc => optional_string (prop h mail "cc")
  | CBcc => optional_string (prop h mail "bcc")
  | CHtml => optional_string (prop h mail "html")
  | CText => optional_string (prop h mail "text")
  | CAttachments => XP.isVoid attachments || XP.isArray h attachments
  end.

(** The field path and the expected type a failed check is reported
    with. *)
Definition reported (c : check) : error :=
  match c with
  | CMessage => ValidationError "mail" "Object"
  | CTo => ValidationError "mail.to" "string"
  | CFrom | CFromShape | CFromPresent => ValidationError "mail.from" "string"
  | CCc => ValidationError "mail.cc" "string"
  | CBcc => ValidationError "mail.bcc" "string"
  | CHtml => ValidationError "mail.html" "string"
  | CText => ValidationError "mail.text" "string"
  | CAttachments => ValidationError "attachments" "Array"
  end.

(** The first check of [order] that the input violates. *)
Definition earliest_violated (order : list check)
    (h : gmap loc cell) (m : XPMailer) (mail attachments : value) : option check :=
  List.find (fun c => negb (holds c h m mail attachments)) order.

(** The checks other than those on [from]. *)
Definition rest_of_checks : list check :=
  [CMessage; CTo; CCc; CBcc; CHtml; CText; CAttachments].

Definition all_hold (cs : list check)
    (h : gmap loc cell) (m : XPMailer) (mail attachments : value) : bool :=
  forallb (fun c => holds c h m mail attachments) cs.

(** The order of the checks as the description of [send] lists them. *)
Definition listed_order : list check :=
  [CMessage; CTo; CFrom; CCc; CBcc; CHtml; CText; CAttachments].

(** The order in which the body of [send] makes them: the shape of [from]
    third, its presence last. *)
Definition send_order : list check :=
  [CMessage; CTo; CFromShape; CCc; CBcc; CHtml; CText; CAttachments; CFromPresent].

(** The outcome of the checks as [send] makes them, with the error it
    passes to the callback. *)
Definition rejection (h : gmap loc cell) (m : XPMailer) (mail attachments : value) : option error :=
  if negb (XP.isObject h mail) then Some (ValidationError "mail" "Object")
  else if negb (XP.isString (prop h mail "to") (Some true))
    then Some (ValidationError "mail.to" "string")
  else if negb (XP.isVoid (prop h mail "from")) && negb (XP.isString (prop h mail "from") (Some true))
    then Some (ValidationError "mail.from" "string")
  else if negb (XP.isVoid (prop h mail "cc")) && negb (XP.isString (prop h mail "cc") None)
    then Some (ValidationError "mail.cc" "string")
  else if negb (XP.isVoid (prop h mail "bcc")) && negb (XP.isString (prop h mail "bcc") None)
    then Some (ValidationError "mail.cc" "string")
  else if negb (XP.isVoid (prop h mail "html")) && negb (XP.isString (prop h mail "html") None)
    then Some (ValidationError "mail.html" "string")
  else if negb (XP.isVoid (prop h mail "text")) && negb (XP.isString (prop h mail "text") None)
    then Some (ValidationError "mail.text" "string")
  else if negb (XP.isVoid attachments) && negb (XP.isArray h attachments)
    then Some (ValidationError "attachments" "Array")
  else if negb (truthy (prop h mail "from")) && negb (truthy (noreply_ m))
    then Some (ValidationError "mail.from" "string")
  else None.

(** The same for [send] of the earlier class. *)
Definition earlier_rejection (h : gmap loc cell) (mail attachments : value) : option error :=
  if negb (XP.isObject h mail)
    then Some (XPError 500 (quoted "email" +:+ " must be Object."))
  else if negb (XP.isString (prop h mail "from") (Some true))
    then Some (XPError 500 (quoted "email.from" +:+ " must be string."))
  else if negb (XP.isString (prop h mail "to") (Some true))
    then Some (XPError 500 (quoted "email.to" +:+ " must be string."))
  else if negb (XP.isVoid (prop h mail "cc")) && negb (XP.isString (prop h mail "cc") None)
    then Some (XPError 500 (quoted "email.cc" +:+ " must be string."))
  else if negb (XP.isVoid (prop h mail "bcc")) && negb (XP.isString (prop h mail "bcc") None)
    then Some (XPError 500 (quoted "email.cc" +:+ " must be string."))
  else if negb (XP.isVoid (prop h mail "html")) && negb (XP.isString (prop h mail "html") None)
    then Some (XPError 500 (quoted "email.html" +:+ " must be string."))
  else if negb (XP.isVoid (prop h mail "text")) && negb (XP.isString (prop h mail "text") None)
    then Some (XPError 500 (quoted "email.text" +:+ " must be string."))
  else if negb (XP.isVoid attachments) && negb (XP.isArray h attachments)
    then Some (XPError 500 (quoted "attachments" +:+ " must be Array."))
  else None.

(** The value [send] writes to [from], and the store with it written. *)
Definition sent_from (h : gmap loc cell) (m : XPMailer) (mail : value) : value :=
  if truthy (prop h mail "from") then prop h mail "from" else noreply_ m.

Definition store_written (h : gmap loc cell) (m : XPMailer) (mail : value) : gmap loc cell :=
  match mail with
  | VRef l => alter (fun c => Cell (cell_kind c) (<["from" := sent_from h m mail]> (props c))) l h
  | _ => h
  end.

(** [Object.assign({}, mail, {attachments: attachments})]: where the new
    object is put, the store with the two object literals, and the store
    with the copy made. *)
Definition copy_loc (h : gmap loc cell) : loc := fresh (dom h).

Definition store_target (h : gmap loc cell) : gmap loc cell :=
  <[copy_loc h := Cell KObject ∅]> h.

Definition source_loc (h : gmap loc cell) : loc := fresh (dom (store_target h)).

Definition store_source (h : gmap loc cell) (attachments : value) : gmap loc cell :=
  <[source_loc h := Cell KObject (list_to_map [("attachments", attachments)])]>
    (store_target h).

Definition store_copy (h : gmap loc cell) (mail attachments : value) : gmap loc cell :=
  let h3 := store_source h attachments in
  alter (fun c => Cell (cell_kind c)
                       (foldl (fun acc s => props_at h3 s ∪ acc) (props c)
                              [mail; VRef (source_loc h)]))
        (copy_loc h) h3.

Definition data_loc (h : gmap loc cell) (m : XPMailer) (mail : value) : loc :=
  copy_loc (store_written h m mail).

Definition store_sent (h : gmap loc cell) (m : XPMailer) (mail attachments : value) : gmap loc cell :=
  store_copy (store_written h m mail) mail attachments.

(** *** The transport's side of [send] *)

(** Modelled from the spec: what the transport reports for a message handed
    to [sendMail], through the callback: "(error, sendResult)", an error or
    [null] and the result of the delivery. *)
Inductive reply :=
| Failure (err : error)
| Success (info : value).

Definition reply_args (r : reply) : list value :=
  match r with
  | Failure e => [VErr e]
  | Success info => [VNull; info]
  end.

(** The invocations of [callback] that a trace leads to, with their
    arguments: those made by the class itself, and the transport's report
    for each message handed over with that callback. *)
Definition invocations (transport : value -> reply)
    (callback : value) (t : list event) : list (list value) :=
  flat_map (fun ev =>
    match ev with
    | Call f args => if decide (f = callback) then [args] else []
    | SendMail _ data f => if decide (f = callback) then [reply_args (transport data)] else []
    | CreateTransport _ _ => []
    end) t.

(** An invocation that reports an error: the first argument is one. *)
Definition is_error_call (args : list value) : bool :=
  match args with
  | v :: _ => truthy v
  | [] => false
  end.

(** *** The constructor's refusals *)

(** The first property of a record, in the order of [initialize], that its
    [validate] hook refuses. *)
Definition first_invalid (h : gmap loc cell) (opts : value) : option field :=
  if negb (fine auth h (prop h opts "auth")) then Some auth
  else if negb (fine hostname h (or_default (prop h opts "hostname") (VStr "localhost")))
    then Some hostname
  else if negb (fine name h (or_default (prop h opts "name") VNull)) then Some name
  else if negb (fine noreply h (or_default (prop h opts "noreply") VNull)) then Some noreply
  else if negb (fine port h (or_default (prop h opts "port") VNull)) then Some port
  else if negb (negb (truthy (prop h opts "tls")) || XP.isObject h (prop h opts "tls"))
    then Some tls
  else None.

(** *** The constructor of the earlier class *)

(** [new XPMailer(options)] of the earlier class. *)
Definition earlier_new (options : value) : M value :=
  put_this blank;;
  function (lib_index.initialize options).

(** The records the earlier constructor takes: as [acceptable], but
    [noreply] is not looked at. *)
Definition earlier_acceptable (h : gmap loc cell) (opts : value) : bool :=
  negb (XP.isVoid opts)
  && fine auth h (prop h opts "auth")
  && fine hostname h (or_default (prop h opts "hostname") (VStr "localhost"))
  && fine name h (or_default (prop h opts "name") VNull)
  && fine port h (or_default (prop h opts "port") VNull)
  && (negb (truthy (prop h opts "tls")) || XP.isObject h (prop h opts "tls")).

(** The state the earlier constructor ends in: that of the later one, with
    [noreply] as it was on the blank instance. *)
Definition earlier_made (opts : value) (w0 : world) : world :=
  World (heap (made opts w0))
        (set_slot noreply VUndefined (this (made opts w0)))
        (trace (made opts w0)).

(** ** Sample data

    A store with authentication data (1), two configuration records, without
    (2) and with (3) a [noreply] address, a callback (4), some messages
    (5 to 10), two records that name a host (11, 12) and one without
    [auth] (13); and the mailers constructed from the records 2, 3 and
    11. *)
Definition sample_store : gmap loc cell :=
  list_to_map
    [(1%positive, Cell KObject (list_to_map [("user", VStr "a"); ("pass", VStr "b")]));
     (2%positive, Cell KObject (list_to_map [("auth", VRef 1)]));
     (3%positive, Cell KObject (list_to_map [("auth", VRef 1); ("noreply", VStr "noreply@example.com")]));
     (4%positive, Cell KFunction ∅);
     (5%positive, Cell KObject (list_to_map [("to", VStr "x@example.com")]));
     (6%positive, Cell KObject (list_to_map [("to", VStr "x@example.com"); ("cc", VNum (Dyadic 5 0))]));
     (7%positive, Cell KObject (list_to_map [("to", VStr "x@example.com"); ("from", VStr "y@example.com");
                                  ("bcc", VNum (Dyadic 5 0))]));
     (8%positive, Cell KObject (list_to_map [("to", VStr "x@example.com"); ("from", VStr "")]));
     (9%positive, Cell KObject (list_to_map [("from", VStr "y@example.com")]));
     (10%positive, Cell KObject (list_to_map [("to", VStr "x@example.com"); ("from", VStr "y@example.com")]));
     (11%positive, Cell KObject (list_to_map [("auth", VRef 1); ("hostname", VStr "smtp.example.com")]));
     (12%positive, Cell KObject (list_to_map [("auth", VRef 1); ("hostname", VStr "mail.example.org")]));
     (13%positive, Cell KObject (list_to_map [("hostname", VStr "smtp.example.com")]))].

Definition plain_mailer : world :=
  (new_XPMailer (VRef 2) (World sample_store blank [])).2.

Definition noreply_mailer : world :=
  (new_XPMailer (VRef 3) (World sample_store blank [])).2.

Definition hosted_mailer : world :=
  (new_XPMailer (VRef 11) (World sample_store blank [])).2.

(** ** More sample data

    A second store: authentication data (1), TLS settings (2), a record
    that gives every property (3), one whose [hostname], [name], [port] and
    [secure] are falsy (4), one with a string as [port] (5), one with a
    number as [noreply] (6), a callback (7), two arrays (8, 10), and a
    message that has an [attachments] property of its own (9); and the
    mailers constructed from the records 3 and 4. *)
Definition office_store : gmap loc cell :=
  list_to_map
    [(1%positive, Cell KObject (list_to_map [("user", VStr "a"); ("pass", VStr "b")]));
     (2%positive, Cell KObject (list_to_map [("rejectUnauthorized", VBool false)]));
     (3%positive, Cell KObject (list_to_map [("auth", VRef 1); ("hostname", VStr "smtp.office.example");
                                  ("name", VStr "client"); ("noreply", VStr "robot@office.example");
                                  ("port", VNum (Dyadic 465 0)); ("secure", VNum (Dyadic 1 0));
                                  ("tls", VRef 2)]));
     (4%positive, Cell KObject (list_to_map [("auth", VRef 1); ("hostname", VStr ""); ("name", VStr "");
                                  ("port", VNum (Dyadic 0 0)); ("secure", VStr "")]));
     (5%positive, Cell KObject (list_to_map [("auth", VRef 1); ("port", VStr "587")]));
     (6%positive, Cell KObject (list_to_map [("auth", VRef 1); ("noreply", VNum (Dyadic 7 0))]));
     (7%positive, Cell KFunction ∅);
     (8%positive, Cell KArray ∅);
     (9%positive, Cell KObject (list_to_map [("to", VStr "x@example.com"); ("subject", VStr "Hello");
                                  ("attachments", VRef 10)]));
     (10%positive, Cell KArray ∅)].

Definition office_mailer : world :=
  (new_XPMailer (VRef 3) (World office_store blank [])).2.

Definition falsy_mailer : world :=
  (new_XPMailer (VRef 4) (World office_store blank [])).2.

(** The mailer from the record 3, made in the store in which the mailer
    from the record 4 lives. *)
Definition second_mailer : world :=
  (new_XPMailer (VRef 3) falsy_mailer).2.

(** * Evaluation lemmas *)

Section evaluation.

Context {A B : Type}.

Lemma bind_run (m : M A) (f : A -> M B) w :
  (m ≫= f) w =
  match m w with
  | (Normal a, w') => f a w'
  | (Returned v, w') => (Returned v, w')
  | (Thrown e, w') => (Thrown e, w')
  end.
Proof. reflexivity. Qed.

Lemma bind_pure (m : M A) (f : A -> M B) w a :
  pure m w a -> (m ≫= f) w = f a w.
Proof. unfold pure. intros H. rewrite bind_run, H. reflexivity. Qed.

Lemma pure_bind (m : M A) (f : A -> M B) w a b :
  pure m w a -> pure (f a) w b -> pure (m ≫= f) w b.
Proof. intros Hm Hf. unfold pure. rewrite (bind_pure _ _ _ _ Hm). exact Hf. Qed.

Lemma pure_ret (a : A) w : pure (mret a) w a.
Proof. reflexivity. Qed.

End evaluation.

Lemma pure_lit v w : pure (lit v) w v.
Proof. reflexivity. Qed.

Lemma pure_this_ f w : pure (this_ f) w (slot f (this w)).
Proof. reflexivity. Qed.

Lemma pure_this_options w : pure this_options w (options (this w)).
Proof. reflexivity. Qed.

Lemma pure_get o k w v :
  pure o w v -> XP.isVoid v = false -> pure (get o k) w (prop (heap w) v k).
Proof.
  intros Ho Hv. unfold get. eapply pure_bind; [exact Ho|].
  rewrite Hv. reflexivity.
Qed.

Lemma pure_js_not e w v :
  pure e w v -> pure (js_not e) w (VBool (negb (truthy v))).
Proof. intros He. unfold js_not. eapply pure_bind; [exact He|]. reflexivity. Qed.

Lemma pure_js_and e1 e2 w v1 v2 :
  pure e1 w v1 -> pure e2 w v2 ->
  pure (js_and e1 e2) w (if truthy v1 then v2 else v1).
Proof.
  intros H1 H2. unfold js_and. eapply pure_bind; [exact H1|].
  destruct (truthy v1); [exact H2 | reflexivity].
Qed.

Lemma pure_js_or e1 e2 w v1 v2 :
  pure e1 w v1 -> pure e2 w v2 ->
  pure (js_or e1 e2) w (if truthy v1 then v1 else v2).
Proof.
  intros H1 H2. unfold js_or. eapply pure_bind; [exact H1|].
  destruct (truthy v1); [reflexivity | exact H2].
Qed.

Lemma pure_js_cond c e1 e2 w v v1 v2 :
  pure c w v -> pure e1 w v1 -> pure e2 w v2 ->
  pure (js_cond c e1 e2) w (if truthy v then v1 else v2).
Proof.
  intros Hc H1 H2. unfold js_cond. eapply pure_bind; [exact Hc|].
  destruct (truthy v); assumption.
Qed.

Lemma pure_Boolean e w v : pure e w v -> pure (Boolean e) w (VBool (truthy v)).
Proof. intros He. unfold Boolean. eapply pure_bind; [exact He|]. reflexivity. Qed.

Lemma pure_isVoid e w v : pure e w v -> pure (XP_isVoid e) w (VBool (XP.isVoid v)).
Proof. intros He. unfold XP_isVoid. eapply pure_bind; [exact He|]. reflexivity. Qed.

Lemma pure_isDefined e w v :
  pure e w v -> pure (XP_isDefined e) w (VBool (XP.isDefined v)).
Proof. intros He. unfold XP_isDefined. eapply pure_bind; [exact He|]. reflexivity. Qed.

Lemma pure_isString e ne w v :
  pure e w v -> pure (XP_isString e ne) w (VBool (XP.isString v ne)).
Proof. intros He. unfold XP_isString. eapply pure_bind; [exact He|]. reflexivity. Qed.

Lemma pure_isInt e nn w v :
  pure e w v -> pure (XP_isInt e nn) w (VBool (XP.isInt v nn)).
Proof. intros He. unfold XP_isInt. eapply pure_bind; [exact He|]. reflexivity. Qed.

Lemma pure_isObject e w v :
  pure e w v -> pure (XP_isObject e) w (VBool (XP.isObject (heap w) v)).
Proof. intros He. unfold XP_isObject. eapply pure_bind; [exact He|]. reflexivity. Qed.

Lemma pure_isArray e w v :
  pure e w v -> pure (XP_isArray e) w (VBool (XP.isArray (heap w) v)).
Proof. intros He. unfold XP_isArray. eapply pure_bind; [exact He|]. reflexivity. Qed.

Lemma pure_new_ValidationError n t w :
  pure (new_ValidationError n t) w (VErr (ValidationError n t)).
Proof. reflexivity. Qed.

Lemma pure_XP_error c msg w : pure (XP_error c msg) w (VErr (XPError c msg)).
Proof. reflexivity. Qed.

Create HintDb js discriminated.

#[global] Hint Resolve pure_lit pure_this_ pure_this_options pure_get pure_js_not
  pure_js_and pure_js_or pure_js_cond pure_Boolean pure_isVoid pure_isDefined
  pure_isString pure_isInt pure_isObject pure_isArray pure_new_ValidationError
  pure_XP_error : js.

(** *** Statements *)

Lemma js_if_run c s w v :
  pure c w v -> js_if c s w = if truthy v then s w else (Normal tt, w).
Proof.
  intros Hc. unfold js_if. rewrite (bind_pure _ _ _ _ Hc).
  destruct (truthy v); reflexivity.
Qed.

Lemma call_run f e w v :
  pure e w v ->
  call f [e] w = (Normal tt, World (heap w) (this w) (trace w ++ [Call f [v]])).
Proof.
  intros He. unfold call. simpl. unfold id.
  rewrite bind_run, bind_run, He. reflexivity.
Qed.

(** One guard of [send]: [if (c) { callback(error); return; }] followed by
    the rest of the body. *)
Lemma guard_run {A} c f e (k : M A) w v err :
  pure c w v -> pure e w err ->
  (js_if c (call f [e];; Return);; k) w =
  if truthy v
  then (Returned VUndefined, World (heap w) (this w) (trace w ++ [Call f [err]]))
  else k w.
Proof.
  intros Hc He. rewrite bind_run, (js_if_run _ _ _ _ Hc).
  destruct (truthy v); [|reflexivity].
  rewrite bind_run, (call_run _ _ _ _ He). reflexivity.
Qed.

Lemma function_run body w :
  function body w =
  match body w with
  | (Normal _, w') => (Normal VUndefined, w')
  | (Returned v, w') => (Normal v, w')
  | (Thrown e, w') => (Thrown e, w')
  end.
Proof. reflexivity. Qed.

(** * Stores that keep their objects *)

Lemma kinds_kept_refl h : kinds_kept h h.
Proof. intros l c H. eauto. Qed.

Lemma kinds_kept_trans h1 h2 h3 :
  kinds_kept h1 h2 -> kinds_kept h2 h3 -> kinds_kept h1 h3.
Proof.
  intros H12 H23 l c H. destruct (H12 l c H) as (c2 & H2 & K2).
  destruct (H23 l c2 H2) as (c3 & H3 & K3). exists c3. split; [done | congruence].
Qed.

Lemma kinds_kept_fresh h c : kinds_kept h (<[fresh (dom h) := c]> h).
Proof.
  intros l c' H. exists c'. split; [|done].
  rewrite lookup_insert_ne; [done|]. intros <-.
  pose proof (is_fresh (dom h)) as F. apply F, elem_of_dom. eauto.
Qed.

Lemma kinds_kept_alter h l (g : gmap string value -> gmap string value) :
  kinds_kept h (alter (fun c => Cell (cell_kind c) (g (props c))) l h).
Proof.
  intros l' c H. destruct (decide (l = l')) as [->|Hne].
  - rewrite lookup_alter_eq, H. eexists. split; [done|]. done.
  - rewrite lookup_alter_ne by done. eauto.
Qed.

(** * The body of [send] *)

Lemma isObject_ref h v :
  XP.isObject h v = true ->
  exists l c, v = VRef l /\ h !! l = Some c /\ cell_kind c = KObject.
Proof.
  unfold XP.isObject. intros H%bool_decide_eq_true.
  destruct v; simpl in H; try discriminate.
  destruct (h !! l) eqn:E; simpl in H; [|discriminate].
  exists l, c. repeat split; congruence.
Qed.

Lemma isObject_not_void h v : XP.isObject h v = true -> XP.isVoid v = false.
Proof. intros (l & c & -> & _)%isObject_ref. reflexivity. Qed.

Lemma truthy_and_bool a b :
  truthy (if truthy (VBool a) then VBool b else VBool a) = a && b.
Proof. destruct a, b; reflexivity. Qed.

Ltac step_guard H tac :=
  erewrite guard_run by eauto 10 using isObject_not_void with js;
  rewrite ?truthy_and_bool; cbn [truthy slot];
  match goal with
  | |- context [if ?b then (Returned _, _) else _] =>
      let E := fresh "E" in destruct b eqn:E; cbv iota in H; [tac|]
  end.

Lemma send_rejected w mail att cb e :
  rejection (heap w) (this w) mail att = Some e ->
  call_send mail att cb w =
  (Normal VUndefined, World (heap w) (this w) (trace w ++ [Call cb [VErr e]])).
Proof.
  unfold rejection, call_send, send. intros H. rewrite function_run.
  destruct (XP.isObject (heap w) mail) eqn:Eo.
  2:{ erewrite guard_run by eauto with js. rewrite Eo. cbn [truthy negb] in *. by simplify_eq. }
  erewrite guard_run by eauto with js. rewrite Eo. cbn [truthy negb] in *.
  do 8 step_guard H ltac:(simplify_eq; reflexivity). discriminate H.
Qed.

Lemma send_accepted w mail att cb :
  rejection (heap w) (this w) mail att = None ->
  XP.isVoid (transporter_ (this w)) = false ->
  call_send mail att cb w =
  (Normal VUndefined,
   World (store_sent (heap w) (this w) mail att) (this w)
         (trace w ++ [SendMail (transporter_ (this w)) (VRef (data_loc (heap w) (this w) mail)) cb])).
Proof.
  unfold rejection, call_send, send. intros H Ht. rewrite function_run.
  destruct (XP.isObject (heap w) mail) eqn:Eo; [|discriminate H].
  erewrite guard_run by eauto with js. rewrite Eo. cbn [truthy negb] in *.
  do 8 step_guard H ltac:(discriminate H).
  clear H.
  destruct (isObject_ref _ _ Eo) as (l & c & -> & Hl & Hk).
  rewrite bind_run. erewrite (bind_pure (js_or _ _)) by eauto 10 with js.
  destruct w as [h m t]. cbn [heap this trace slot] in *.
  unfold put. cbn [XP.isVoid]. rewrite bind_run. cbn [get_heap put_heap heap this trace].
  unfold sendMail.
  erewrite (bind_pure (this_ _)) by eauto with js. cbn [slot this].
  rewrite Ht.
  unfold object_of, object_literal, alloc, Object_assign, emit, get_heap, put_heap, lit.
  reflexivity.
Qed.

Lemma copy_loc_fresh h : h !! copy_loc h = None.
Proof. unfold copy_loc. apply not_elem_of_dom, is_fresh. Qed.

Lemma source_loc_fresh h : store_target h !! source_loc h = None.
Proof. unfold source_loc. apply not_elem_of_dom, is_fresh. Qed.

Lemma source_loc_ne_copy h : source_loc h ≠ copy_loc h.
Proof.
  intros E. pose proof (source_loc_fresh h) as H.
  rewrite E in H. unfold store_target in H. rewrite lookup_insert_eq in H. discriminate.
Qed.

Lemma copy_loc_new h l c : h !! l = Some c -> copy_loc h ≠ l.
Proof. intros H E. pose proof (copy_loc_fresh h) as F. congruence. Qed.

Lemma source_loc_new h l c : h !! l = Some c -> source_loc h ≠ l.
Proof.
  intros H E. pose proof (source_loc_fresh h) as F. rewrite E in F.
  unfold store_target in F.
  rewrite lookup_insert_ne in F by (eapply copy_loc_new; eauto). congruence.
Qed.

Lemma store_source_old h att l c : h !! l = Some c -> store_source h att !! l = Some c.
Proof.
  intros H. unfold store_source, store_target.
  rewrite lookup_insert_ne by (eapply source_loc_new; eauto).
  rewrite lookup_insert_ne by (eapply copy_loc_new; eauto). exact H.
Qed.

Lemma store_source_target h att : store_source h att !! copy_loc h = Some (Cell KObject ∅).
Proof.
  unfold store_source. rewrite lookup_insert_ne by apply source_loc_ne_copy.
  unfold store_target. by rewrite lookup_insert_eq.
Qed.

Lemma store_source_source h att :
  store_source h att !! source_loc h = Some (Cell KObject {["attachments" := att]}).
Proof.
  unfold store_source. rewrite lookup_insert_eq. cbn [list_to_map foldr fst snd].
  by rewrite insert_empty.
Qed.

(** The objects there before the copy was made are as they were. *)
Lemma store_copy_old h mail att l c : h !! l = Some c -> store_copy h mail att !! l = Some c.
Proof.
  intros H. unfold store_copy. cbv zeta.
  rewrite lookup_alter_ne by (eapply copy_loc_new; eauto).
  by apply store_source_old.
Qed.

(** The copy has the properties of the message and the attachments. *)
Lemma store_copy_new h l c att :
  h !! l = Some c ->
  store_copy h (VRef l) att !! copy_loc h =
  Some (Cell KObject (<["attachments" := att]> (props c))).
Proof.
  intros H. unfold store_copy. cbv zeta. rewrite lookup_alter_eq, store_source_target.
  cbn [fmap option_fmap option_map foldl cell_kind props props_at].
  rewrite store_source_source, (store_source_old _ _ _ _ H).
  cbn [from_option props]. rewrite (right_id_L ∅ (∪)).
  by rewrite <- insert_union_singleton_l.
Qed.

Lemma store_copy_kinds h mail att : kinds_kept h (store_copy h mail att).
Proof. intros l c H. exists c. split; [by apply store_copy_old | done]. Qed.

Lemma prop_copy h l c att k :
  h !! l = Some c ->
  prop (store_copy h (VRef l) att) (VRef (copy_loc h)) k =
  if decide (k = "attachments") then att else prop h (VRef l) k.
Proof.
  intros H. unfold prop, props_at at 1.
  rewrite (store_copy_new _ _ _ _ H). cbn [from_option props].
  case_decide as E1; [subst; by rewrite lookup_insert_eq|].
  rewrite lookup_insert_ne by done. unfold props_at. by rewrite H.
Qed.

Lemma store_written_lookup h m l c :
  h !! l = Some c ->
  store_written h m (VRef l) !! l =
  Some (Cell (cell_kind c) (<["from" := sent_from h m (VRef l)]> (props c))).
Proof. intros H. unfold store_written. rewrite lookup_alter_eq, H. reflexivity. Qed.

Lemma store_written_other h m l l' :
  l' ≠ l -> store_written h m (VRef l) !! l' = h !! l'.
Proof. intros H. unfold store_written. by rewrite lookup_alter_ne. Qed.

Lemma store_written_kinds h m mail : kinds_kept h (store_written h m mail).
Proof.
  unfold store_written. destruct mail; try apply kinds_kept_refl.
  apply (kinds_kept_alter _ _ (fun p => <["from" := _]> p)).
Qed.

Lemma data_loc_new h m l c : h !! l = Some c -> data_loc h m (VRef l) ≠ l.
Proof.
  intros H. unfold data_loc. eapply copy_loc_new. by apply store_written_lookup.
Qed.

Lemma data_loc_unused h m l : h !! data_loc h m (VRef l) = None.
Proof.
  pose proof (copy_loc_fresh (store_written h m (VRef l))) as F. fold (data_loc h m (VRef l)) in F.
  destruct (decide (data_loc h m (VRef l) = l)) as [E|E].
  - rewrite E in F |- *. unfold store_written in F. rewrite lookup_alter_eq in F.
    destruct (h !! l); [discriminate | reflexivity].
  - by rewrite store_written_other in F.
Qed.

Lemma store_sent_data h m l c att :
  h !! l = Some c ->
  store_sent h m (VRef l) att !! data_loc h m (VRef l) =
  Some (Cell KObject (<["attachments" := att]> (<["from" := sent_from h m (VRef l)]> (props c)))).
Proof.
  intros H. unfold store_sent, data_loc.
  by rewrite (store_copy_new _ _ _ _ (store_written_lookup _ m _ _ H)).
Qed.

Lemma store_sent_mail h m l c att :
  h !! l = Some c ->
  store_sent h m (VRef l) att !! l =
  Some (Cell (cell_kind c) (<["from" := sent_from h m (VRef l)]> (props c))).
Proof.
  intros H. unfold store_sent. apply store_copy_old. by apply store_written_lookup.
Qed.

Lemma store_sent_kinds h m mail att : kinds_kept h (store_sent h m mail att).
Proof.
  unfold store_sent. eapply kinds_kept_trans; [apply store_written_kinds | apply store_copy_kinds].
Qed.

(** * The checks of [send] against their description *)

Lemma isString_non_empty v : XP.isString v (Some true) = non_empty_string v.
Proof. destruct v; try reflexivity. simpl. by destruct (String.eqb s ""). Qed.

Lemma not_optional_string v :
  negb (XP.isVoid v) && negb (XP.isString v None) = negb (optional_string v).
Proof. unfold optional_string. by destruct (XP.isVoid v), (XP.isString v None). Qed.

Lemma shape_of_from v :
  negb (XP.isVoid v) && negb (XP.isString v (Some true)) =
  negb (XP.isVoid v || non_empty_string v).
Proof. rewrite isString_non_empty. by destruct (XP.isVoid v), (non_empty_string v). Qed.

Lemma truthy_non_empty v :
  XP.isVoid v || non_empty_string v = true -> truthy v = negb (XP.isVoid v).
Proof. destruct v; try done. Qed.

Lemma truthy_noreply w :
  constructed w -> truthy (noreply_ (this w)) = bool_decide (is_Some (default_sender (this w))).
Proof.
  unfold constructed, invariant. intros H.
  repeat (apply andb_prop in H as [H ?]).
  unfold default_sender. destruct (noreply_ (this w)); try done.
  simpl. by destruct (String.eqb s "").
Qed.

Lemma default_sender_noreply m s : default_sender m = Some s -> noreply_ m = VStr s.
Proof.
  unfold default_sender. destruct (noreply_ m); try done.
  destruct (String.eqb s0 ""); [done|]. by intros [= ->].
Qed.

Lemma constructed_transporter w : constructed w -> XP.isVoid (transporter_ (this w)) = false.
Proof.
  unfold constructed, invariant. intros H.
  repeat (apply andb_prop in H as [H ?]). eauto using isObject_not_void.
Qed.

(** The checks as [send] makes them, in terms of what they demand. *)
Lemma rejection_checks w mail att :
  constructed w ->
  rejection (heap w) (this w) mail att =
  if negb (holds CMessage (heap w) (this w) mail att) then Some (reported CMessage)
  else if negb (holds CTo (heap w) (this w) mail att) then Some (reported CTo)
  else if negb (holds CFromShape (heap w) (this w) mail att) then Some (reported CFromShape)
  else if negb (holds CCc (heap w) (this w) mail att) then Some (reported CCc)
  else if negb (holds CBcc (heap w) (this w) mail att) then Some (ValidationError "mail.cc" "string")
  else if negb (holds CHtml (heap w) (this w) mail att) then Some (reported CHtml)
  else if negb (holds CText (heap w) (this w) mail att) then Some (reported CText)
  else if negb (holds CAttachments (heap w) (this w) mail att) then Some (reported CAttachments)
  else if negb (holds CFromPresent (heap w) (this w) mail att) then Some (reported CFromPresent)
  else None.
Proof.
  intros Hw. unfold rejection, holds, reported.
  rewrite !not_optional_string, shape_of_from, isString_non_empty, (truthy_noreply _ Hw).
  destruct (XP.isObject (heap w) mail); [|done]. cbn [negb].
  destruct (non_empty_string (prop (heap w) mail "to")); [|done]. cbn [negb].
  destruct (XP.isVoid (prop (heap w) mail "from") || non_empty_string (prop (heap w) mail "from")) eqn:E; [|done].
  rewrite (truthy_non_empty _ E).
  destruct (XP.isVoid att) eqn:Ea; cbn [negb andb orb];
  repeat match goal with |- context [negb ?b] => destruct b; cbn [negb andb orb]; try done end.
Qed.

Lemma all_hold_cons c cs h m mail att :
  all_hold (c :: cs) h m mail att = holds c h m mail att && all_hold cs h m mail att.
Proof. reflexivity. Qed.

Lemma rest_of_checks_hold w mail att :
  all_hold rest_of_checks (heap w) (this w) mail att = true ->
  holds CMessage (heap w) (this w) mail att = true
  /\ holds CTo (heap w) (this w) mail att = true
  /\ holds CCc (heap w) (this w) mail att = true
  /\ holds CBcc (heap w) (this w) mail att = true
  /\ holds CHtml (heap w) (this w) mail att = true
  /\ holds CText (heap w) (this w) mail att = true
  /\ holds CAttachments (heap w) (this w) mail att = true.
Proof.
  unfold rest_of_checks. rewrite !all_hold_cons. intros H.
  repeat (apply andb_prop in H as [? H]). tauto.
Qed.

(** The verdict on a message without [from] that is otherwise in order. *)
Lemma rejection_missing_from w mail att :
  constructed w ->
  all_hold rest_of_checks (heap w) (this w) mail att = true ->
  XP.isVoid (prop (heap w) mail "from") = true ->
  rejection (heap w) (this w) mail att =
  match default_sender (this w) with
  | None => Some (ValidationError "mail.from" "string")
  | Some _ => None
  end.
Proof.
  intros Hw (H1 & H2 & H3 & H4 & H5 & H6 & H7)%rest_of_checks_hold Hf.
  rewrite (rejection_checks _ _ _ Hw), H1, H2, H3, H4, H5, H6, H7. cbn [negb].
  cbn [holds]. rewrite Hf. cbn [orb negb].
  destruct (default_sender (this w)); reflexivity.
Qed.

Lemma prop_sent_data h m l c att k :
  h !! l = Some c ->
  prop (store_sent h m (VRef l) att) (VRef (data_loc h m (VRef l))) k =
  if decide (k = "attachments") then att
  else if decide (k = "from") then sent_from h m (VRef l)
  else prop h (VRef l) k.
Proof.
  intros H. unfold prop, props_at at 1.
  rewrite (store_sent_data _ _ _ _ _ H). cbn [from_option props].
  case_decide as E1; [subst; by rewrite lookup_insert_eq|].
  rewrite lookup_insert_ne by done.
  case_decide as E2; [subst; by rewrite lookup_insert_eq|].
  rewrite lookup_insert_ne by done.
  unfold props_at. by rewrite H.
Qed.

Lemma prop_sent_mail h m l c att k :
  h !! l = Some c ->
  prop (store_sent h m (VRef l) att) (VRef l) k =
  if decide (k = "from") then sent_from h m (VRef l) else prop h (VRef l) k.
Proof.
  intros H. unfold prop, props_at at 1.
  rewrite (store_sent_mail _ _ _ _ _ H). cbn [from_option props].
  case_decide as E2; [subst; by rewrite lookup_insert_eq|].
  rewrite lookup_insert_ne by done.
  unfold props_at. by rewrite H.
Qed.

Lemma sent_from_default h m mail s :
  XP.isVoid (prop h mail "from") = true -> default_sender m = Some s ->
  sent_from h m mail = VStr s.
Proof.
  intros Hf Hs. unfold sent_from.
  destruct (prop h mail "from"); try discriminate Hf; by apply default_sender_noreply.
Qed.

(** Two outcomes that differ in the error passed to the callback differ. *)
Lemma same_report (r : completion value) h m t f e e' :
  (r, World h m (t ++ [Call f [VErr e]])) = (r, World h m (t ++ [Call f [VErr e']])) ->
  e = e'.
Proof. intros [= Q]. apply app_inv_head in Q. by injection Q. Qed.

(** C1, as the body of [send] has it.  A message without [from] that
    passes the other checks: without a default sender the callback gets the
    validation error for [mail.from] and nothing is handed to the
    transport; with a default sender the message goes to [sendMail] with
    that address as [from], its other fields as given and the attachments
    added. *)
Theorem send_missing_from w mail attachments callback :
  constructed w ->
  all_hold rest_of_checks (heap w) (this w) mail attachments = true ->
  XP.isVoid (prop (heap w) mail "from") = true ->
  match default_sender (this w) with
  | None =>
      call_send mail attachments callback w =
      (Normal VUndefined,
       World (heap w) (this w)
             (trace w ++ [Call callback [VErr (ValidationError "mail.from" "string")]]))
  | Some s =>
      exists h' data,
        call_send mail attachments callback w =
        (Normal VUndefined,
         World h' (this w) (trace w ++ [SendMail (transporter_ (this w)) data callback]))
        /\ prop h' data "from" = VStr s
        /\ prop h' data "attachments" = attachments
        /\ forall k, k <> "from" -> k <> "attachments" ->
                     prop h' data k = prop (heap w) mail k
  end.
Proof.
  intros Hw Hr Hf. pose proof (rejection_missing_from _ _ _ Hw Hr Hf) as Hv.
  destruct (default_sender (this w)) as [s|] eqn:Hs.
  - apply rest_of_checks_hold in Hr as (Hm & _).
    destruct (isObject_ref _ _ Hm) as (l & c & -> & Hl & _).
    eexists _, _. split; [|split; [|split]].
    + apply send_accepted; [exact Hv | by apply constructed_transporter].
    + rewrite (prop_sent_data _ _ _ _ _ _ Hl). simpl. by apply sent_from_default.
    + by rewrite (prop_sent_data _ _ _ _ _ _ Hl).
    + intros k K1 K2. rewrite (prop_sent_data _ _ _ _ _ _ Hl).
      by rewrite !decide_False.
  - by apply send_rejected.
Qed.

(** C1 for every message without [from] fails: the check that [from] is
    there comes last in [send].  A message with a valid [to], no [from] and
    a number as [cc], sent through a mailer without default sender, is
    answered with the error for [mail.cc]. *)
Lemma missing_from_reported_late :
  ~ (forall w mail attachments callback,
       constructed w ->
       holds CMessage (heap w) (this w) mail attachments = true ->
       holds CTo (heap w) (this w) mail attachments = true ->
       XP.isVoid (prop (heap w) mail "from") = true ->
       default_sender (this w) = None ->
       call_send mail attachments callback w =
       (Normal VUndefined,
        World (heap w) (this w)
              (trace w ++ [Call callback [VErr (ValidationError "mail.from" "string")]]))).
Proof.
  intros H.
  assert (call_send (VRef 6) VUndefined (VRef 4) plain_mailer =
          (Normal VUndefined,
           World (heap plain_mailer) (this plain_mailer)
                 (trace plain_mailer ++ [Call (VRef 4) [VErr (ValidationError "mail.cc" "string")]])))
    as E by (apply send_rejected; vm_compute; reflexivity).
  assert (constructed plain_mailer) as Hc by (vm_compute; reflexivity).
  assert (holds CMessage (heap plain_mailer) (this plain_mailer) (VRef 6) VUndefined = true)
    as H1 by (vm_compute; reflexivity).
  assert (holds CTo (heap plain_mailer) (this plain_mailer) (VRef 6) VUndefined = true)
    as H2 by (vm_compute; reflexivity).
  assert (XP.isVoid (prop (heap plain_mailer) (VRef 6) "from") = true)
    as H3 by (vm_compute; reflexivity).
  assert (default_sender (this plain_mailer) = None) as H4 by (vm_compute; reflexivity).
  pose proof (H plain_mailer (VRef 6) VUndefined (VRef 4) Hc H1 H2 H3 H4) as F.
  rewrite E in F. apply same_report in F. discriminate F.
Qed.

(** C9. With a default sender and no [from], [send] writes the default
    address into the [from] field of the caller's own message object, and
    hands the transport a different, new object: the message so changed,
    with the attachments added.  The caller's object is left changed. *)
Theorem send_writes_from_in_place w mail attachments callback s :
  constructed w ->
  all_hold rest_of_checks (heap w) (this w) mail attachments = true ->
  XP.isVoid (prop (heap w) mail "from") = true ->
  default_sender (this w) = Some s ->
  exists h' data,
    call_send mail attachments callback w =
    (Normal VUndefined,
     World h' (this w) (trace w ++ [SendMail (transporter_ (this w)) data callback]))
    /\ prop h' mail "from" = VStr s
    /\ prop h' mail "from" <> prop (heap w) mail "from"
    /\ (forall k, k <> "from" -> prop h' mail k = prop (heap w) mail k)
    /\ data <> mail
    /\ kind_at (heap w) data = None
    /\ kind_at h' data = Some KObject
    /\ prop h' data "attachments" = attachments
    /\ forall k, k <> "attachments" -> prop h' data k = prop h' mail k.
Proof.
  intros Hw Hr Hf Hs. pose proof (rejection_missing_from _ _ _ Hw Hr Hf) as Hv.
  rewrite Hs in Hv.
  apply rest_of_checks_hold in Hr as (Hm & _).
  destruct (isObject_ref _ _ Hm) as (l & c & -> & Hl & _).
  pose proof (sent_from_default _ _ _ _ Hf Hs) as Hsf.
  exists (store_sent (heap w) (this w) (VRef l) attachments),
         (VRef (data_loc (heap w) (this w) (VRef l))).
  split; [apply send_accepted; [exact Hv | by apply constructed_transporter]|].
  split; [by rewrite (prop_sent_mail _ _ _ _ _ _ Hl)|].
  split.
  { rewrite (prop_sent_mail _ _ _ _ _ _ Hl). simpl. rewrite Hsf.
    intros E. rewrite <- E in Hf. discriminate Hf. }
  split; [intros k K; rewrite (prop_sent_mail _ _ _ _ _ _ Hl); by rewrite decide_False|].
  split; [intros [= E]; by apply (data_loc_new _ _ _ _ Hl) in E|].
  split; [simpl; by rewrite data_loc_unused|].
  split; [simpl; by rewrite (store_sent_data _ _ _ _ _ Hl)|].
  split; [by rewrite (prop_sent_data _ _ _ _ _ _ Hl)|].
  intros k K. rewrite (prop_sent_data _ _ _ _ _ _ Hl), (prop_sent_mail _ _ _ _ _ _ Hl).
  by rewrite decide_False.
Qed.

(** C10. A message whose [from] is the empty string is answered with the
    validation error for [mail.from], whether or not a default sender is
    configured: the check on the shape of [from] comes before the
    substitution. *)
Theorem send_empty_from w mail attachments callback :
  holds CMessage (heap w) (this w) mail attachments = true ->
  holds CTo (heap w) (this w) mail attachments = true ->
  prop (heap w) mail "from" = VStr "" ->
  call_send mail attachments callback w =
  (Normal VUndefined,
   World (heap w) (this w)
         (trace w ++ [Call callback [VErr (ValidationError "mail.from" "string")]])).
Proof.
  cbn [holds]. intros Hm Ht Hf. apply send_rejected.
  unfold rejection. rewrite Hm, isString_non_empty, Ht, Hf. reflexivity.
Qed.

(** * The order and the outcome of the checks *)

Lemma from_check_split h m mail att :
  holds CFrom h m mail att = holds CFromShape h m mail att && holds CFromPresent h m mail att.
Proof.
  cbn [holds]. destruct (prop h mail "from") as [| | | | s | |]; try reflexivity.
Qed.

Lemma all_hold_listed h m mail att :
  all_hold listed_order h m mail att = all_hold send_order h m mail att.
Proof.
  unfold listed_order, send_order. rewrite !all_hold_cons, from_check_split.
  destruct (holds CMessage h m mail att), (holds CTo h m mail att),
    (holds CFromShape h m mail att), (holds CFromPresent h m mail att),
    (holds CCc h m mail att), (holds CBcc h m mail att), (holds CHtml h m mail att),
    (holds CText h m mail att), (holds CAttachments h m mail att); reflexivity.
Qed.

Lemma earliest_violated_none cs h m mail att :
  earliest_violated cs h m mail att = None <-> all_hold cs h m mail att = true.
Proof.
  unfold earliest_violated, all_hold. induction cs as [|c cs IH]; [done|].
  cbn [List.find forallb]. destruct (holds c h m mail att); cbn [negb andb]; [exact IH | done].
Qed.

(** The verdict of [send] is that of the first failed check in the order
    of its body; a failed check on [bcc] aside, the error is the one that
    belongs to the check. *)
Lemma rejection_earliest w mail att :
  constructed w ->
  match earliest_violated send_order (heap w) (this w) mail att with
  | Some c =>
      exists e, rejection (heap w) (this w) mail att = Some e
                /\ if decide (c = CBcc) then exists n t, e = ValidationError n t
                   else e = reported c
  | None => rejection (heap w) (this w) mail att = None
  end.
Proof.
  intros Hw. rewrite (rejection_checks _ _ _ Hw).
  unfold earliest_violated, send_order. cbn [List.find].
  repeat match goal with
  | |- context [negb (holds ?c ?h ?m ?x ?y)] =>
      destruct (holds c h m x y); cbn [negb];
      [| eexists; split; [reflexivity|]; try reflexivity; simpl; eauto]
  end.
  reflexivity.
Qed.

(** The same with the error of the check on [bcc] as the body builds it,
    under the name of [cc]. *)
Lemma rejection_earliest_error w mail att :
  constructed w ->
  match earliest_violated send_order (heap w) (this w) mail att with
  | Some c =>
      rejection (heap w) (this w) mail att =
      Some (if decide (c = CBcc) then ValidationError "mail.cc" "string" else reported c)
  | None => rejection (heap w) (this w) mail att = None
  end.
Proof.
  intros Hw. rewrite (rejection_checks _ _ _ Hw).
  unfold earliest_violated, send_order. cbn [List.find].
  repeat match goal with
  | |- context [negb (holds ?c ?h ?m ?x ?y)] =>
      destruct (holds c h m x y); cbn [negb]; [|reflexivity]
  end.
  reflexivity.
Qed.

(** C2, as the body of [send] has it.  The checks are made in this order:
    the message is an object; [to] is a non-empty string; [from], if
    present, is a non-empty string; [cc], [bcc], [html], [text], if
    present, are strings; [attachments], if present, is an array; [from] is
    present or a default sender is configured.  The callback gets the error
    of the first check that fails, the others are not made, and the message
    goes to the transport when none fails.  The error of a check names the
    field it is on, but for the check on [bcc], whose error is the one the
    body builds for it and names [mail.cc]. *)
Theorem send_reports_first_failure w mail attachments callback :
  constructed w ->
  match earliest_violated send_order (heap w) (this w) mail attachments with
  | Some c =>
      exists e,
        call_send mail attachments callback w =
        (Normal VUndefined, World (heap w) (this w) (trace w ++ [Call callback [VErr e]]))
        /\ e = if decide (c = CBcc) then ValidationError "mail.cc" "string"
               else reported c
  | None =>
      exists h' data,
        call_send mail attachments callback w =
        (Normal VUndefined,
         World h' (this w) (trace w ++ [SendMail (transporter_ (this w)) data callback]))
  end.
Proof.
  intros Hw. pose proof (rejection_earliest_error w mail attachments Hw) as H.
  destruct (earliest_violated send_order (heap w) (this w) mail attachments) as [c|].
  - eexists. split; [by apply send_rejected | reflexivity].
  - eexists _, _. apply send_accepted; [exact H | by apply constructed_transporter].
Qed.

(** C2 as listed, with the check on [from] third, fails: a message with a
    valid [to], no [from] and a number as [cc], sent through a mailer
    without default sender, violates the checks on [from] and on [cc]; the
    callback gets the error for [mail.cc]. *)
Lemma listed_order_not_followed :
  ~ (forall w mail attachments callback c,
       constructed w ->
       earliest_violated listed_order (heap w) (this w) mail attachments = Some c ->
       trace (call_send mail attachments callback w).2 =
       trace w ++ [Call callback [VErr (reported c)]]).
Proof.
  intros H.
  specialize (H plain_mailer (VRef 6) VUndefined (VRef 4) CFrom).
  assert (constructed plain_mailer) as Hc by (vm_compute; reflexivity).
  assert (earliest_violated listed_order (heap plain_mailer) (this plain_mailer)
            (VRef 6) VUndefined = Some CFrom) as He by (vm_compute; reflexivity).
  specialize (H Hc He). vm_compute in H. discriminate H.
Qed.

(** C3. An input that violates a check of [send] gets the callback invoked
    with a validation error and [send] returns, the store and the instance
    untouched and nothing handed to the transport; an input that passes
    them all is handed to the transport.  A message without [to] gets the
    validation error for [mail.to]. *)
Theorem send_validates_first w mail attachments callback :
  constructed w ->
  (if all_hold listed_order (heap w) (this w) mail attachments
   then exists h' data,
          call_send mail attachments callback w =
          (Normal VUndefined,
           World h' (this w) (trace w ++ [SendMail (transporter_ (this w)) data callback]))
   else exists n t,
          call_send mail attachments callback w =
          (Normal VUndefined,
           World (heap w) (this w)
                 (trace w ++ [Call callback [VErr (ValidationError n t)]])))
  /\ (holds CMessage (heap w) (this w) mail attachments = true ->
      XP.isVoid (prop (heap w) mail "to") = true ->
      call_send mail attachments callback w =
      (Normal VUndefined,
       World (heap w) (this w)
             (trace w ++ [Call callback [VErr (ValidationError "mail.to" "string")]]))).
Proof.
  intros Hw. split.
  - pose proof (rejection_earliest w mail attachments Hw) as H.
    rewrite all_hold_listed.
    destruct (all_hold send_order (heap w) (this w) mail attachments) eqn:Ea.
    + apply earliest_violated_none in Ea. rewrite Ea in H.
      eexists _, _. apply send_accepted; [exact H | by apply constructed_transporter].
    + destruct (earliest_violated send_order (heap w) (this w) mail attachments) as [c|] eqn:Ee.
      2:{ apply earliest_violated_none in Ee. congruence. }
      destruct H as (e & He & Hc).
      assert (exists n t, e = ValidationError n t) as (n & t & ->).
      { destruct (decide (c = CBcc)); [exact Hc|]. subst e. destruct c; simpl; eauto. }
      exists n, t. by apply send_rejected.
  - cbn [holds]. intros Hm Ht. apply send_rejected.
    unfold rejection. rewrite Hm. cbn [negb].
    destruct (prop (heap w) mail "to"); try discriminate Ht; reflexivity.
Qed.

(** C4 fails on the check of [bcc]: a message whose [bcc] is a number, and
    which is otherwise in order, is answered with a validation error that
    names [mail.cc], the field of the check before, where the error of the
    check names [mail.bcc]. *)
Theorem send_bcc_reported_as_cc :
  earliest_violated send_order (heap plain_mailer) (this plain_mailer) (VRef 7) VUndefined
  = Some CBcc
  /\ reported CBcc = ValidationError "mail.bcc" "string"
  /\ call_send (VRef 7) VUndefined (VRef 4) plain_mailer =
     (Normal VUndefined,
      World (heap plain_mailer) (this plain_mailer)
            (trace plain_mailer ++ [Call (VRef 4) [VErr (ValidationError "mail.cc" "string")]])).
Proof.
  split; [vm_compute; reflexivity|]. split; [reflexivity|].
  apply send_rejected. vm_compute. reflexivity.
Qed.

(** * One report per call *)

Lemma invocations_app transport callback t1 t2 :
  invocations transport callback (t1 ++ t2) =
  invocations transport callback t1 ++ invocations transport callback t2.
Proof. unfold invocations. apply flat_map_app. Qed.

Lemma rejection_is_validation h m mail att e :
  rejection h m mail att = Some e -> exists n t, e = ValidationError n t.
Proof.
  unfold rejection. intros H.
  repeat match type of H with
  | (if ?b then _ else _) = _ => destruct b; [injection H as <-; eauto|]
  end.
  discriminate H.
Qed.

(** C5. Every call of [send] on a constructed mailer returns, and leads to
    exactly one invocation of the callback: either [send] invokes it with
    a validation error and hands nothing to the transport, or it hands the
    message and the callback to the transport once and does not invoke the
    callback itself, so that the one invocation is the transport's report,
    an error or a result. *)
Theorem send_calls_back_once (transport : value -> reply) w mail attachments callback :
  constructed w ->
  exists h' ev args,
    call_send mail attachments callback w = (Normal VUndefined, World h' (this w) (trace w ++ [ev]))
    /\ invocations transport callback (trace w ++ [ev]) =
       invocations transport callback (trace w) ++ [args]
    /\ match ev with
       | Call f [VErr (ValidationError n t)] =>
           f = callback /\ args = [VErr (ValidationError n t)] /\ is_error_call args = true
       | SendMail handle data f =>
           f = callback /\ handle = transporter_ (this w)
           /\ args = reply_args (transport data)
           /\ match transport data with
              | Failure err => args = [VErr err] /\ is_error_call args = true
              | Success info => args = [VNull; info] /\ is_error_call args = false
              end
       | _ => False
       end.
Proof.
  intros Hw.
  destruct (rejection (heap w) (this w) mail attachments) as [e|] eqn:Hr.
  - destruct (rejection_is_validation _ _ _ _ _ Hr) as (n & t & ->).
    eexists _, _, _. split; [by apply send_rejected|].
    rewrite invocations_app. cbn [invocations flat_map app]. rewrite decide_True by done.
    split; [reflexivity|]. done.
  - eexists _, _, _. split.
    { apply send_accepted; [exact Hr | by apply constructed_transporter]. }
    rewrite invocations_app. cbn [invocations flat_map app]. rewrite decide_True by done.
    split; [reflexivity|]. repeat split.
    by destruct (transport _).
Qed.

(** * Assignment to a declared property *)

Lemma pure_eq {A} (e : M A) w a b : pure e w a -> a = b -> pure e w b.
Proof. by intros H <-. Qed.

Lemma set_run f val w : pure (set (descriptor f) val) w (stored f (this w) val).
Proof.
  destruct f; cbn [descriptor set stored];
    (eapply pure_eq; [solve [eauto 10 with js]|]); cbn [slot truthy]; reflexivity.
Qed.

Lemma validate_run f post w :
  pure (match validate (descriptor f) with
        | Some check => check post
        | None => mret (VBool false)
        end) w (if fine f (heap w) post then VBool false else VStr (wanted f)).
Proof.
  destruct f; cbn [descriptor validate fine wanted]; try reflexivity;
    (eapply pure_eq; [solve [eauto 10 with js]|]); cbn [truthy].
  all: repeat match goal with
       | |- context [XP.isObject ?h ?v] => destruct (XP.isObject h v)
       | |- context [XP.isString ?v ?b] => destruct (XP.isString v b)
       | |- context [XP.isInt ?v ?b] => destruct (XP.isInt v b)
       | |- context [XP.isVoid ?v] => destruct (XP.isVoid v)
       end; reflexivity.
Qed.

(** The expression of an assignment evaluated, what the assignment does. *)
Lemma assign_run f e w v w1 :
  e w = (Normal v, w1) ->
  assign descriptor f e w =
  if fine f (heap w1) (stored f (this w1) v)
  then (Normal tt, assigned f v w1)
  else (Thrown (ValidationError (field_name f) (wanted f)), w1).
Proof.
  intros He. unfold assign. rewrite bind_run, He.
  rewrite (bind_pure _ _ _ _ (set_run f v w1)).
  rewrite (bind_pure _ _ _ _ (validate_run f _ w1)).
  destruct (fine f (heap w1) (stored f (this w1) v)) eqn:Hf; [reflexivity|].
  destruct f; try reflexivity; discriminate Hf.
Qed.

(** * Code that leaves the instance alone *)

Lemma isObject_kept h h' v :
  kinds_kept h h' -> XP.isObject h v = true -> XP.isObject h' v = true.
Proof.
  intros K (l & c & -> & Hl & Hk)%isObject_ref.
  destruct (K l c Hl) as (c' & Hl' & Hk').
  unfold XP.isObject. apply bool_decide_eq_true. simpl. rewrite Hl'. simpl. congruence.
Qed.

Lemma invariant_kept h h' m :
  kinds_kept h h' -> invariant h m = true -> invariant h' m = true.
Proof.
  intros K. unfold invariant. rewrite !andb_true_iff.
  intros (((((((H1 & H2) & H3) & H4) & H5) & H6) & H7) & H8).
  repeat split; eauto using isObject_kept.
Qed.

Section outside.

Context {A B : Type}.

Lemma outside_ret (a : A) : outside (mret a).
Proof. intros w. split; [done | apply kinds_kept_refl]. Qed.

Lemma outside_bind (m : M A) (f : A -> M B) :
  outside m -> (forall a, outside (f a)) -> outside (m ≫= f).
Proof.
  intros Hm Hf w. rewrite bind_run. specialize (Hm w).
  destruct (m w) as [[a|v|e] w1]; cbn [snd] in *; try exact Hm.
  destruct Hm as [Ht Hk]. destruct (Hf a w1) as [Ht' Hk'].
  split; [congruence | eauto using kinds_kept_trans].
Qed.

Lemma outside_throw e : outside (@throw A e).
Proof. intros w. split; [done | apply kinds_kept_refl]. Qed.

Lemma outside_Return : outside (@Return A).
Proof. intros w. split; [done | apply kinds_kept_refl]. Qed.

End outside.

Lemma outside_if {A} (b : bool) (m1 m2 : M A) :
  outside m1 -> outside m2 -> outside (if b then m1 else m2).
Proof. by destruct b. Qed.

Lemma outside_get_heap : outside get_heap.
Proof. intros w. split; [done | apply kinds_kept_refl]. Qed.

Lemma outside_get_this : outside get_this.
Proof. intros w. split; [done | apply kinds_kept_refl]. Qed.

Lemma outside_emit ev : outside (emit ev).
Proof. intros w. split; [done | apply kinds_kept_refl]. Qed.

Lemma outside_alloc c : outside (alloc c).
Proof. intros w. split; [done | apply kinds_kept_fresh]. Qed.

Lemma outside_put o k x : outside (put o k x).
Proof.
  intros w. unfold put. destruct (XP.isVoid o); [split; [done | apply kinds_kept_refl]|].
  destruct o; try (split; [done | apply kinds_kept_refl]).
  split; [done | apply (kinds_kept_alter _ _ (fun p => <[k := x]> p))].
Qed.

Lemma outside_Object_assign target sources : outside (Object_assign target sources).
Proof.
  intros w. unfold Object_assign.
  destruct target; try (split; [done | apply kinds_kept_refl]).
  split; [done|].
  apply (kinds_kept_alter _ _ (fun p => foldl (fun acc s => props_at (heap w) s ∪ acc) p sources)).
Qed.

Lemma outside_function body : outside body -> outside (function body).
Proof.
  intros H w. rewrite function_run. specialize (H w).
  by destruct (body w) as [[a|v|e] w1].
Qed.

Lemma outside_mapM {A B} (f : A -> M B) l : (forall a, outside (f a)) -> outside (mapM f l).
Proof.
  intros Hf. induction l as [|a l IH]; cbn [mapM].
  - apply outside_ret.
  - apply outside_bind; [apply Hf|]. intros b.
    apply outside_bind; [apply IH|]. intros bs. apply outside_ret.
Qed.

Create HintDb outside discriminated.

#[global] Hint Resolve outside_ret outside_throw outside_Return outside_if
  outside_get_heap outside_get_this outside_emit outside_alloc outside_put
  outside_Object_assign outside_function : outside.

Ltac outside_step :=
  first
    [ solve [auto with outside]
    | apply outside_bind; [|intros ?]
    | apply outside_if
    | apply outside_mapM; intros ? ].

Ltac solve_outside :=
  repeat (outside_step; cbv beta).

Lemma outside_lit v : outside (lit v).
Proof. apply outside_ret. Qed.

Lemma outside_this_ f : outside (this_ f).
Proof. unfold this_. solve_outside. Qed.

Lemma outside_this_options : outside this_options.
Proof. unfold this_options. solve_outside. Qed.

Lemma outside_get o k : outside o -> outside (get o k).
Proof. intros H. unfold get. solve_outside. Qed.

Lemma outside_js_not e : outside e -> outside (js_not e).
Proof. intros H. unfold js_not. solve_outside. Qed.

Lemma outside_js_and e1 e2 : outside e1 -> outside e2 -> outside (js_and e1 e2).
Proof. intros H1 H2. unfold js_and. solve_outside. Qed.

Lemma outside_js_or e1 e2 : outside e1 -> outside e2 -> outside (js_or e1 e2).
Proof. intros H1 H2. unfold js_or. solve_outside. Qed.

Lemma outside_js_cond c e1 e2 :
  outside c -> outside e1 -> outside e2 -> outside (js_cond c e1 e2).
Proof. intros H H1 H2. unfold js_cond. solve_outside. Qed.

Lemma outside_js_if c s : outside c -> outside s -> outside (js_if c s).
Proof. intros H1 H2. unfold js_if. solve_outside. Qed.

Lemma outside_XP_isVoid e : outside e -> outside (XP_isVoid e).
Proof. intros H. unfold XP_isVoid. solve_outside. Qed.

Lemma outside_XP_isString e b : outside e -> outside (XP_isString e b).
Proof. intros H. unfold XP_isString. solve_outside. Qed.

Lemma outside_XP_isObject e : outside e -> outside (XP_isObject e).
Proof. intros H. unfold XP_isObject. solve_outside. Qed.

Lemma outside_XP_isArray e : outside e -> outside (XP_isArray e).
Proof. intros H. unfold XP_isArray. solve_outside. Qed.

Lemma outside_new_ValidationError n t : outside (new_ValidationError n t).
Proof. apply outside_ret. Qed.

Lemma outside_call f args : Forall outside args -> outside (call f args).
Proof.
  intros H. unfold call. apply outside_bind; [|intros ?; apply outside_emit].
  induction H as [|e es He Hes IH]; cbn [mapM].
  - apply outside_ret.
  - apply outside_bind; [exact He|]. intros v.
    apply outside_bind; [exact IH|]. intros vs. apply outside_ret.
Qed.

Lemma outside_object_of ps : Forall (fun p => outside p.2) ps -> outside (object_of ps).
Proof.
  intros H. unfold object_of, object_literal.
  apply outside_bind; [|intros ?; apply outside_alloc].
  induction H as [|p ps Hp Hps IH]; cbn [mapM].
  - apply outside_ret.
  - apply outside_bind.
    { apply outside_bind; [exact Hp|]. intros v. apply outside_ret. }
    intros v. apply outside_bind; [exact IH|]. intros vs. apply outside_ret.
Qed.

Lemma outside_createTransport e : outside e -> outside (nodemailer_createTransport e).
Proof. intros H. unfold nodemailer_createTransport. solve_outside. Qed.

Lemma outside_sendMail t d cb : outside t -> outside d -> outside (sendMail t d cb).
Proof. intros H1 H2. unfold sendMail. solve_outside. Qed.

#[global] Hint Resolve outside_lit outside_this_ outside_this_options outside_get
  outside_js_not outside_js_and outside_js_or outside_js_cond outside_js_if
  outside_XP_isVoid outside_XP_isString outside_XP_isObject outside_XP_isArray
  outside_new_ValidationError outside_call outside_object_of outside_createTransport
  outside_sendMail : outside.

Lemma outside_send mail att cb : outside (send mail att cb).
Proof.
  unfold send.
  repeat (apply outside_bind; [|intros ?]);
    auto 20 using outside_bind, Forall_cons, Forall_nil with outside.
Qed.

(** * Constructed instances stay constructed *)

Lemma invariant_parts h m :
  invariant h m = true <->
  XP.isObject h (auth_ m) = true
  /\ non_empty_string (hostname_ m) = true
  /\ XP.isVoid (name_ m) || XP.isString (name_ m) None = true
  /\ XP.isVoid (noreply_ m) || XP.isString (noreply_ m) None = true
  /\ XP.isVoid (port_ m) || XP.isInt (port_ m) (Some true) = true
  /\ is_boolean (secure_ m) = true
  /\ XP.isObject h (tls_ m) = true
  /\ XP.isObject h (transporter_ m) = true.
Proof. unfold invariant. rewrite !andb_true_iff. tauto. Qed.

Lemma non_empty_string_truthy v : non_empty_string v = true -> truthy v = true.
Proof. by destruct v. Qed.

Lemma non_empty_string_isString v : non_empty_string v = true -> XP.isString v None = true.
Proof. by destruct v. Qed.

Lemma isObject_truthy h v : XP.isObject h v = true -> truthy v = true.
Proof. by intros (l & c & -> & _)%isObject_ref. Qed.

(** On a constructed instance the [set] hook answers the value already in
    a slot that holds a defined one. *)
Lemma stored_defined f w v :
  constructed w -> XP.isDefined (slot f (this w)) = true ->
  stored f (this w) v = slot f (this w).
Proof.
  intros (H1 & H2 & H3 & H4 & H5 & H6 & H7 & H8)%invariant_parts Hd.
  destruct f; cbn [stored slot] in *; rewrite ?Hd; try reflexivity.
  - by rewrite (isObject_truthy _ _ H1).
  - by rewrite (non_empty_string_truthy _ H2).
  - by rewrite (isObject_truthy _ _ H7).
  - by rewrite (isObject_truthy _ _ H8).
Qed.

(** The [validate] hooks accept what the slots of a constructed instance
    hold. *)
Lemma slot_accepted f w : constructed w -> fine f (heap w) (slot f (this w)) = true.
Proof.
  intros (H1 & H2 & H3 & H4 & H5 & H6 & H7 & H8)%invariant_parts.
  destruct f; cbn [fine slot]; rewrite ?H1, ?H3, ?H4, ?H5, ?H7, ?H8, ?orb_true_r;
    try reflexivity.
  by rewrite (non_empty_string_isString _ H2).
Qed.

Lemma set_slot_same f m : set_slot f (slot f m) m = m.
Proof. by destruct f, m. Qed.

Lemma slot_set_slot f g v m :
  slot g (set_slot f v m) = if decide (f = g) then v else slot g m.
Proof. by destruct f, g. Qed.

Lemma assigned_constructed f v w :
  constructed w ->
  fine f (heap w) (stored f (this w) v) = true ->
  constructed (assigned f v w) /\ frozen (this w) (this (assigned f v w)).
Proof.
  intros Hw Hc. split.
  - destruct (XP.isDefined (slot f (this w))) eqn:Hd.
    + unfold assigned. rewrite (stored_defined _ _ _ Hw Hd), set_slot_same. exact Hw.
    + pose proof Hw as (H1 & H2 & H3 & H4 & H5 & H6 & H7 & H8)%invariant_parts.
      unfold constructed, assigned. cbn [heap this]. apply invariant_parts.
      destruct f; cbn [stored slot fine set_slot auth_ hostname_ name_ noreply_
                         port_ secure_ tls_ transporter_] in *;
        rewrite ?Hd in *;
        try (rewrite (isObject_truthy _ _ H1) in * );
        try (rewrite (non_empty_string_truthy _ H2) in * );
        try (rewrite (isObject_truthy _ _ H7) in * );
        try (rewrite (isObject_truthy _ _ H8) in * );
        repeat split; try assumption; try reflexivity.
  - intros g Hg. unfold assigned. cbn [this]. rewrite slot_set_slot.
    case_decide as E; [subst g; by apply stored_defined | reflexivity].
Qed.

Lemma evolves_refl w : constructed w -> evolves w w.
Proof. intros H. split; [done|]. split; [apply kinds_kept_refl | by intros f Hf]. Qed.

Lemma frozen_defined m m' f :
  frozen m m' -> XP.isDefined (slot f m) = true -> XP.isDefined (slot f m') = true.
Proof. intros H Hf. by rewrite (H f Hf). Qed.

Lemma evolves_trans w1 w2 w3 : evolves w1 w2 -> evolves w2 w3 -> evolves w1 w3.
Proof.
  intros (_ & K12 & F12) (C3 & K23 & F23). split; [done|].
  split; [eauto using kinds_kept_trans|].
  intros f Hf. rewrite (F23 f), (F12 f); eauto using frozen_defined.
Qed.

Lemma outside_evolves {A} (c : M A) w : outside c -> constructed w -> evolves w (c w).2.
Proof.
  intros Hc Hw. destruct (Hc w) as [Ht Hk]. split; [|split; [done|]].
  - unfold constructed. rewrite Ht. by apply (invariant_kept (heap w)).
  - intros f _. by rewrite Ht.
Qed.

Lemma outside_steady {A} (c : M A) : outside c -> steady c.
Proof. intros Hc w Hw. by apply outside_evolves. Qed.

Lemma steady_bind {A B} (m : M A) (f : A -> M B) :
  steady m -> (forall a, steady (f a)) -> steady (m ≫= f).
Proof.
  intros Hm Hf w Hw. rewrite bind_run. specialize (Hm w Hw).
  destruct (m w) as [[a|v|e] w1]; cbn [snd] in *; try exact Hm.
  eapply evolves_trans; [exact Hm|]. apply Hf. apply Hm.
Qed.

Lemma steady_function body : steady body -> steady (function body).
Proof.
  intros H w Hw. rewrite function_run. specialize (H w Hw).
  by destruct (body w) as [[a|v|e] w1].
Qed.

Lemma steady_assign f e : outside e -> steady (assign descriptor f e).
Proof.
  intros He w Hw. pose proof (outside_evolves e w He Hw) as H1.
  destruct (e w) as [[v|v|err] w1] eqn:E; cbn [snd] in H1.
  - rewrite (assign_run _ _ _ _ _ E).
    destruct (fine f (heap w1) (stored f (this w1) v)) eqn:Hc; cbn [snd];
      [|exact H1].
    eapply evolves_trans; [exact H1|].
    destruct (assigned_constructed f v w1) as [H2 H3]; [apply H1 | exact Hc |].
    split; [exact H2|]. split; [apply kinds_kept_refl | exact H3].
  - unfold assign. rewrite bind_run, E. exact H1.
  - unfold assign. rewrite bind_run, E. exact H1.
Qed.

Lemma steady_set_options opts : steady (m ← get_this; put_this (set_options opts m)).
Proof.
  intros w Hw. split; [|split; [apply kinds_kept_refl|]].
  - exact Hw.
  - intros f _. by destruct f.
Qed.

Lemma steady_initialize opts : steady (initialize opts).
Proof.
  unfold initialize.
  apply steady_bind; [apply steady_set_options | intros _].
  repeat (apply steady_bind;
          [apply steady_assign; auto 20 using Forall_cons, Forall_nil with outside | intros _]).
  apply steady_assign; auto 20 using Forall_cons, Forall_nil with outside.
Qed.

Lemma steady_send mail att cb : steady (call_send mail att cb).
Proof. apply outside_steady, outside_function, outside_send. Qed.

(** * The constructor *)

Lemma set_options_run opts w :
  (m ← get_this; put_this (set_options opts m)) w =
  (Normal tt, World (heap w) (set_options opts (this w)) (trace w)).
Proof. reflexivity. Qed.

Lemma get_void o k w v :
  pure o w v -> XP.isVoid v = true -> get o k w = (Thrown TypeError, w).
Proof. intros Ho Hv. unfold get. rewrite (bind_pure _ _ _ _ Ho), Hv. reflexivity. Qed.

Lemma assign_thrown f e w err w1 :
  e w = (Thrown err, w1) -> assign descriptor f e w = (Thrown err, w1).
Proof. intros He. unfold assign. by rewrite bind_run, He. Qed.

Lemma assign_pure f e w v :
  pure e w v ->
  assign descriptor f e w =
  if fine f (heap w) (stored f (this w) v)
  then (Normal tt, assigned f v w)
  else (Thrown (ValidationError (field_name f) (wanted f)), w).
Proof. apply assign_run. Qed.

Lemma or_object_run e w x :
  pure e w x ->
  js_or e (object_of []) w =
  (Normal (tls_value (heap w) x), World (tls_store (heap w) x) (this w) (trace w)).
Proof.
  intros He. unfold js_or, tls_value, tls_store. rewrite (bind_pure _ _ _ _ He).
  destruct (truthy x); [by destruct w | reflexivity].
Qed.

Lemma createTransport_run w :
  nodemailer_createTransport
    (object_of [("auth", this_ auth); ("host", this_ hostname); ("name", this_ name);
                ("port", this_ port); ("secure", this_ secure); ("tls", this_ tls)]) w =
  (Normal (VRef (handle_loc (heap w) (this w))),
   World (store_handle (heap w) (this w)) (this w)
         (trace w ++ [CreateTransport (VRef (options_loc (heap w)))
                                      (VRef (handle_loc (heap w) (this w)))])).
Proof. reflexivity. Qed.

Lemma handle_is_object h m :
  XP.isObject (store_handle h m) (VRef (handle_loc h m)) = true.
Proof.
  unfold XP.isObject, store_handle. apply bool_decide_eq_true. simpl.
  by rewrite lookup_insert_eq.
Qed.

Lemma kinds_kept_tls_store h x : kinds_kept h (tls_store h x).
Proof. unfold tls_store. destruct (truthy x); [apply kinds_kept_refl | apply kinds_kept_fresh]. Qed.

Lemma kinds_kept_store_handle h m : kinds_kept h (store_handle h m).
Proof.
  eapply kinds_kept_trans; [apply (kinds_kept_fresh h (Cell KObject (transport_options m)))|].
  apply kinds_kept_fresh.
Qed.

Ltac init_norm H :=
  cbn [assigned heap this trace options set_options set_slot stored slot auth_ hostname_
       name_ noreply_ port_ secure_ tls_ transporter_ blank truthy XP.isDefined XP.isVoid
       negb field_name wanted] in H;
  fold (or_default) in H.

Ltac init_split H :=
  match type of H with
  | context [if ?c then (Normal tt, _) else _] => destruct c eqn:?; [|discriminate H]
  end.

Ltac init_step H :=
  rewrite bind_run in H; erewrite assign_pure in H by eauto 10 with js;
  init_norm H; init_split H.

Lemma prop_some h o k : prop h o k <> VUndefined -> exists l c, o = VRef l /\ h !! l = Some c.
Proof.
  unfold prop, props_at. destruct o; try (rewrite lookup_empty; done).
  destruct (h !! l) eqn:E; [eauto|]. cbn [from_option]. rewrite lookup_empty. done.
Qed.

Lemma prop_tls_store h x o k :
  (exists l c, o = VRef l /\ h !! l = Some c) ->
  prop (tls_store h x) o k = prop h o k.
Proof.
  intros (l & c & -> & Hl). unfold tls_store. destruct (truthy x); [done|].
  unfold prop, props_at. rewrite lookup_insert_ne; [done|].
  intros E. pose proof (is_fresh (dom h)) as F. apply F. rewrite E. apply elem_of_dom. eauto.
Qed.

Lemma truthy_or_false x : truthy (or_default x (VBool false)) = truthy x.
Proof. unfold or_default. by destruct (truthy x) eqn:E. Qed.

Lemma new_normal opts w0 v w :
  new_XPMailer opts w0 = (Normal v, w) ->
  v = VUndefined /\ w = made opts w0
  /\ XP.isVoid opts = false
  /\ fine auth (heap w0) (prop (heap w0) opts "auth") = true
  /\ fine hostname (heap w0) (or_default (prop (heap w0) opts "hostname") (VStr "localhost")) = true
  /\ fine name (heap w0) (or_default (prop (heap w0) opts "name") VNull) = true
  /\ fine noreply (heap w0) (or_default (prop (heap w0) opts "noreply") VNull) = true
  /\ fine port (heap w0) (or_default (prop (heap w0) opts "port") VNull) = true
  /\ fine tls (tls_store (heap w0) (prop (heap w0) opts "tls"))
              (tls_value (heap w0) (prop (heap w0) opts "tls")) = true.
Proof.
  intros H. unfold new_XPMailer, initialize in H.
  rewrite bind_run in H. cbn [put_this] in H.
  rewrite function_run, bind_run, set_options_run in H. cbn [heap this trace] in H.
  destruct (XP.isVoid opts) eqn:Hv.
  { rewrite bind_run in H. erewrite assign_thrown in H.
    2:{ eapply get_void; [apply pure_this_options | exact Hv]. }
    discriminate H. }
  do 5 init_step H.
  rewrite bind_run in H. erewrite assign_run in H.
  2:{ apply or_object_run. eauto 10 with js. }
  init_norm H. init_split H.
  init_step H.
  erewrite assign_run in H by apply createTransport_run.
  init_norm H. rewrite handle_is_object in H.
  assert (exists l c, opts = VRef l /\ heap w0 !! l = Some c) as Ho.
  { apply (prop_some _ _ "auth"). intros E. rewrite E in *. discriminate. }
  rewrite (prop_tls_store _ _ _ _ Ho) in H.
  change (if truthy (prop (heap w0) opts "secure") then prop (heap w0) opts "secure"
          else VBool false)
    with (or_default (prop (heap w0) opts "secure") (VBool false)) in H.
  rewrite truthy_or_false in H.
  injection H as <- <-. repeat split; assumption.
Qed.

Lemma hostname_non_empty x :
  XP.isString (or_default x (VStr "localhost")) None = true ->
  non_empty_string (or_default x (VStr "localhost")) = true.
Proof.
  unfold or_default. destruct (truthy x) eqn:E; [|done].
  destruct x; try discriminate. intros _. exact E.
Qed.

Lemma tls_value_not_void h x : XP.isVoid (tls_value h x) = false.
Proof. unfold tls_value. destruct (truthy x) eqn:E; [by destruct x | done]. Qed.

(** What the constructor builds satisfies the class invariant. *)
Lemma new_constructed opts w0 v w :
  new_XPMailer opts w0 = (Normal v, w) -> constructed w.
Proof.
  intros (_ & -> & Hv & Ha & Hh & Hn & Hr & Hp & Ht)%new_normal.
  unfold constructed, made. cbv zeta. cbn [heap this]. apply invariant_parts.
  cbn [fine] in *. rewrite tls_value_not_void in Ht. cbn [orb] in Ht.
  cbn [set_slot configured options auth_ hostname_ name_ noreply_ port_ secure_ tls_
       transporter_].
  repeat split; try assumption.
  - eapply isObject_kept; [|exact Ha].
    eapply kinds_kept_trans; [apply kinds_kept_tls_store | apply kinds_kept_store_handle].
  - by apply hostname_non_empty.
  - eapply isObject_kept; [apply kinds_kept_store_handle | exact Ht].
  - apply handle_is_object.
Qed.

Lemma reachable_constructed w : reachable w -> constructed w.
Proof.
  induction 1 as [w0 opts v w H | w f val r w' _ IH H | w opts r w' _ IH H
                 | w mail att cb r w' _ IH H | w h' _ IH H].
  - eapply new_constructed; eauto.
  - pose proof (steady_assign f (lit val) (outside_lit val) w IH) as E.
    rewrite H in E. apply E.
  - pose proof (steady_function _ (steady_initialize opts) w IH) as E.
    rewrite H in E. apply E.
  - pose proof (steady_send mail att cb w IH) as E. rewrite H in E. apply E.
  - unfold constructed in *. cbn [heap this]. eapply invariant_kept; eauto.
Qed.

Lemma store_handle_old h m l c : h !! l = Some c -> store_handle h m !! l = Some c.
Proof.
  intros H. destruct (kinds_kept_store_handle h m l c H) as (c' & H' & _).
  unfold store_handle, store_options in *.
  assert (options_loc h <> l) as N1.
  { intros <-. pose proof (is_fresh (dom h)) as F. apply F, elem_of_dom. eauto. }
  assert (handle_loc h m <> l) as N2.
  { intros <-. pose proof (is_fresh (dom (store_options h m))) as F. apply F, elem_of_dom.
    unfold store_options. rewrite lookup_insert_ne by done. eauto. }
  by rewrite !lookup_insert_ne.
Qed.

Lemma fine_tls_value h x :
  fine tls (tls_store h x) (tls_value h x) = negb (truthy x) || XP.isObject h x.
Proof.
  cbn [fine]. rewrite tls_value_not_void. cbn [orb].
  unfold tls_value, tls_store. destruct (truthy x); [reflexivity|]. cbn [negb orb].
  unfold XP.isObject. apply bool_decide_eq_true. simpl. by rewrite lookup_insert_eq.
Qed.

Ltac init_norm_goal :=
  cbn [assigned heap this trace options set_options set_slot stored slot auth_ hostname_
       name_ noreply_ port_ secure_ tls_ transporter_ blank truthy XP.isDefined XP.isVoid
       negb field_name wanted];
  fold (or_default).

(** An acceptable record is constructed from, into [made]. *)
Lemma new_accepts opts w0 :
  acceptable (heap w0) opts = true ->
  new_XPMailer opts w0 = (Normal VUndefined, made opts w0).
Proof.
  unfold acceptable. rewrite !andb_true_iff, negb_true_iff.
  intros ((((((Hv & Ha) & Hh) & Hn) & Hr) & Hp) & Ht).
  rewrite <- fine_tls_value in Ht.
  unfold new_XPMailer, initialize.
  rewrite bind_run. cbn [put_this].
  rewrite function_run, bind_run, set_options_run. cbn [heap this trace].
  rewrite bind_run. erewrite assign_pure by eauto 10 with js. init_norm_goal. rewrite Ha.
  rewrite bind_run. erewrite assign_pure by eauto 10 with js. init_norm_goal.
  unfold or_default in Hh. rewrite Hh.
  rewrite bind_run. erewrite assign_pure by eauto 10 with js. init_norm_goal.
  unfold or_default in Hn. rewrite Hn.
  rewrite bind_run. erewrite assign_pure by eauto 10 with js. init_norm_goal.
  unfold or_default in Hr. rewrite Hr.
  rewrite bind_run. erewrite assign_pure by eauto 10 with js. init_norm_goal.
  unfold or_default in Hp. rewrite Hp.
  rewrite bind_run. erewrite assign_run.
  2:{ apply or_object_run. eauto 10 with js. }
  init_norm_goal. rewrite Ht.
  rewrite bind_run. erewrite assign_pure by eauto 10 with js. init_norm_goal.
  cbn [fine].
  erewrite assign_run by apply createTransport_run.
  init_norm_goal. cbn [fine]. rewrite handle_is_object.
  assert (exists l c, opts = VRef l /\ heap w0 !! l = Some c) as Ho.
  { apply (prop_some _ _ "auth"). intros E. rewrite E in *. discriminate. }
  rewrite (prop_tls_store _ _ _ _ Ho).
  change (if truthy (prop (heap w0) opts "secure") then prop (heap w0) opts "secure"
          else VBool false)
    with (or_default (prop (heap w0) opts "secure") (VBool false)).
  rewrite truthy_or_false. reflexivity.
Qed.

Lemma new_normal_acceptable opts w0 v w :
  new_XPMailer opts w0 = (Normal v, w) -> acceptable (heap w0) opts = true.
Proof.
  intros (_ & _ & Hv & Ha & Hh & Hn & Hr & Hp & Ht)%new_normal.
  unfold acceptable. rewrite <- fine_tls_value, Hv, Ha, Hh, Hn, Hr, Hp, Ht. reflexivity.
Qed.

(** * The configuration *)

(** C6. Construction from an acceptable record returns, and then: from a
    record without [hostname], the hostname is "localhost"; from one
    without [secure], [secure] is [false]; from one without [tls], [tls] is
    a new, empty object. *)
Theorem new_applies_defaults opts w0 :
  acceptable (heap w0) opts = true ->
  exists w,
    new_XPMailer opts w0 = (Normal VUndefined, w)
    /\ (props_at (heap w0) opts !! "hostname" = None -> hostname_ (this w) = VStr "localhost")
    /\ (props_at (heap w0) opts !! "secure" = None -> secure_ (this w) = VBool false)
    /\ (props_at (heap w0) opts !! "tls" = None ->
        exists l, tls_ (this w) = VRef l
                  /\ heap w0 !! l = None
                  /\ heap w !! l = Some (Cell KObject ∅)).
Proof.
  intros H%new_accepts. exists (made opts w0). split; [exact H|].
  unfold made. cbv zeta.
  cbn [heap this set_slot configured options auth_ hostname_ name_ noreply_ port_ secure_ tls_
       transporter_].
  unfold prop. split; [|split].
  - by intros ->.
  - by intros ->.
  - intros ->. cbn [default tls_value tls_store truthy]. eexists. split; [reflexivity|].
    split.
    + apply not_elem_of_dom, is_fresh.
    + apply store_handle_old. by rewrite lookup_insert_eq.
Qed.

(** C7. Construction from a record whose [auth] is missing or is not an
    object throws the validation error for [auth], expected type Object;
    no transport has been created by then. *)
Theorem new_requires_auth opts w0 :
  XP.isVoid opts = false ->
  XP.isObject (heap w0) (prop (heap w0) opts "auth") = false ->
  new_XPMailer opts w0 =
  (Thrown (ValidationError "auth" "Object"),
   World (heap w0) (set_options opts blank) (trace w0)).
Proof.
  intros Hv Ha. unfold new_XPMailer, initialize.
  rewrite bind_run. cbn [put_this].
  rewrite function_run, bind_run, set_options_run. cbn [heap this trace].
  rewrite bind_run. erewrite assign_pure by eauto 10 with js.
  cbn [heap this trace options set_options stored slot fine auth_ blank truthy].
  rewrite Ha. reflexivity.
Qed.

(** C8. On an instance in use, a property that holds a defined value is
    not changed by an assignment, whatever is assigned, and the assignment
    raises nothing; and a further run of [initialize], with any record and
    however it ends, leaves every such property, the hostname among them,
    as it was. *)
Theorem fields_write_once w :
  reachable w ->
  (forall f val,
     XP.isDefined (slot f (this w)) = true ->
     assign descriptor f (lit val) w = (Normal tt, w))
  /\ (forall opts,
        hostname_ (this (function (initialize opts) w).2) = hostname_ (this w)
        /\ frozen (this w) (this (function (initialize opts) w).2)).
Proof.
  intros Hw%reachable_constructed. split.
  - intros f val Hd. rewrite (assign_pure f _ w val) by apply pure_lit.
    rewrite (stored_defined _ _ _ Hw Hd), (slot_accepted _ _ Hw).
    unfold assigned. rewrite (stored_defined _ _ _ Hw Hd), set_slot_same. by destruct w.
  - intros opts.
    destruct (steady_function _ (steady_initialize opts) w Hw) as (_ & _ & Hf).
    split; [|exact Hf]. apply (Hf hostname).
    pose proof Hw as (_ & H2 & _)%invariant_parts. cbn [slot]. by destruct (hostname_ (this w)).
Qed.

(** * The earlier class against the later one *)

Lemma earlier_send_rejected w mail att cb e :
  earlier_rejection (heap w) mail att = Some e ->
  function (lib_index.send mail att cb) w =
  (Normal VUndefined, World (heap w) (this w) (trace w ++ [Call cb [VErr e]])).
Proof.
  unfold earlier_rejection, lib_index.send. intros H. rewrite function_run.
  destruct (XP.isObject (heap w) mail) eqn:Eo.
  2:{ erewrite guard_run by eauto with js. rewrite Eo. cbn [truthy negb] in *.
      simplify_eq. reflexivity. }
  erewrite guard_run by eauto with js. rewrite Eo. cbn [truthy negb] in *.
  do 7 step_guard H ltac:(simplify_eq; reflexivity). discriminate H.
Qed.

(** An accepted message goes to the transport as it is: the earlier
    [send] writes nothing to the caller's object. *)
Lemma earlier_send_accepted w mail att cb :
  earlier_rejection (heap w) mail att = None ->
  XP.isVoid (transporter_ (this w)) = false ->
  function (lib_index.send mail att cb) w =
  (Normal VUndefined,
   World (store_copy (heap w) mail att) (this w)
         (trace w ++ [SendMail (transporter_ (this w)) (VRef (copy_loc (heap w))) cb])).
Proof.
  unfold earlier_rejection, lib_index.send. intros H Ht. rewrite function_run.
  destruct (XP.isObject (heap w) mail) eqn:Eo; [|discriminate H].
  erewrite guard_run by eauto with js. rewrite Eo. cbn [truthy negb] in *.
  do 7 step_guard H ltac:(discriminate H).
  clear H.
  destruct w as [h m t]. cbn [heap this trace slot] in *.
  unfold sendMail.
  erewrite (bind_pure (this_ _)) by eauto with js. cbn [slot this].
  rewrite Ht. reflexivity.
Qed.

Lemma store_written_same h m l :
  truthy (prop h (VRef l) "from") = true -> store_written h m (VRef l) = h.
Proof.
  intros H. unfold store_written, sent_from. rewrite H.
  apply map_eq. intros l'. destruct (decide (l = l')) as [<-|Hne].
  - rewrite lookup_alter_eq. unfold prop, props_at in *.
    destruct (h !! l) as [[k p]|] eqn:E; [|done]. cbn in *.
    destruct (p !! "from") as [v|] eqn:Ep; [|discriminate H]. cbn.
    by rewrite insert_id.
  - by rewrite lookup_alter_ne.
Qed.

(** Without a default sender the two classes accept the same messages. *)
Lemma earlier_accepts_alike h m mail att :
  truthy (noreply_ m) = false ->
  (earlier_rejection h mail att = None <-> rejection h m mail att = None).
Proof.
  intros Hn. unfold earlier_rejection, rejection. rewrite Hn.
  destruct (XP.isObject h mail); cbn [negb]; [|done].
  rewrite !isString_non_empty.
  destruct (non_empty_string (prop h mail "to")) eqn:Et; cbn [negb].
  - destruct (prop h mail "from") as [| | | | s | |] eqn:Ef;
      cbn [non_empty_string XP.isVoid truthy negb andb];
      (split; intros H; try done;
       repeat match type of H with
       | (if ?b then _ else _) = None => destruct b; [discriminate H|]
       end; done).
  - split; [|done]. by destruct (non_empty_string (prop h mail "from")).
Qed.

(** On the messages they accept, they do the same. *)
Lemma earlier_send_alike w mail att cb :
  constructed w -> default_sender (this w) = None ->
  rejection (heap w) (this w) mail att = None ->
  call_send mail att cb w = function (lib_index.send mail att cb) w.
Proof.
  intros Hw Hd Hr. pose proof (truthy_noreply _ Hw) as Hn. rewrite Hd in Hn.
  pose proof (constructed_transporter _ Hw) as Ht.
  rewrite (send_accepted _ _ _ _ Hr Ht).
  rewrite (earlier_send_accepted w mail att cb); [|by apply (earlier_accepts_alike _ (this w))|done].
  assert (store_written (heap w) (this w) mail = heap w) as E.
  { unfold rejection in Hr.
    destruct (XP.isObject (heap w) mail) eqn:Eo; [|discriminate Hr].
    destruct (isObject_ref _ _ Eo) as (l & c & -> & _).
    apply store_written_same.
    repeat match type of Hr with
    | (if ?b then _ else _) = None => destruct b eqn:?; [discriminate Hr|]
    end.
    rewrite Hn in *. by destruct (truthy (prop (heap w) (VRef l) "from")). }
  unfold store_sent, data_loc. by rewrite E.
Qed.

(** X11. The earlier class asks every message for [from]: a message
    object whose [from] is not a non-empty string is answered with the
    error for [email.from], whatever else it holds, and nothing is sent. *)
Lemma earlier_send_missing_from w mail att cb :
  XP.isObject (heap w) mail = true ->
  non_empty_string (prop (heap w) mail "from") = false ->
  function (lib_index.send mail att cb) w =
  (Normal VUndefined,
   World (heap w) (this w)
         (trace w ++ [Call cb [VErr (XPError 500 (quoted "email.from" +:+ " must be string."))]])).
Proof.
  intros Hm Hf. apply earlier_send_rejected.
  unfold earlier_rejection. by rewrite Hm, isString_non_empty, Hf.
Qed.

(** * More on [send] *)

Lemma rejection_none_ref h m mail att :
  rejection h m mail att = None -> exists l c, mail = VRef l /\ h !! l = Some c.
Proof.
  unfold rejection. destruct (XP.isObject h mail) eqn:E; [|discriminate].
  intros _. destruct (isObject_ref _ _ E) as (l & c & -> & H & _). eauto.
Qed.

Lemma default_sender_non_empty m s : default_sender m = Some s -> s <> "".
Proof.
  unfold default_sender. destruct (noreply_ m); try done.
  destruct (String.eqb s0 "") eqn:E; [done|]. intros [= ->] ->. discriminate E.
Qed.

(** X1. [send] leaves the instance as it is and changes nothing in the
    store but the [from] property of the message: the other objects, and
    the other properties of the message, are as before. *)
Theorem send_frame w mail attachments callback :
  constructed w ->
  this (call_send mail attachments callback w).2 = this w
  /\ (forall l c, heap w !! l = Some c -> mail <> VRef l ->
                  heap (call_send mail attachments callback w).2 !! l = Some c)
  /\ (forall k, k <> "from" ->
                prop (heap (call_send mail attachments callback w).2) mail k =
                prop (heap w) mail k)
  /\ kind_at (heap (call_send mail attachments callback w).2) mail = kind_at (heap w) mail.
Proof.
  intros Hw. destruct (rejection (heap w) (this w) mail attachments) as [e|] eqn:Hr.
  - rewrite (send_rejected _ _ _ _ _ Hr). done.
  - rewrite (send_accepted _ _ _ _ Hr (constructed_transporter _ Hw)). cbn [snd heap this].
    destruct (rejection_none_ref _ _ _ _ Hr) as (l0 & c0 & -> & Hl0).
    split; [done|]. split; [|split].
    + intros l c Hl Hne. unfold store_sent. apply store_copy_old.
      rewrite store_written_other by congruence. exact Hl.
    + intros k Hk. rewrite (prop_sent_mail _ _ _ _ _ _ Hl0). by rewrite decide_False.
    + simpl. by rewrite (store_sent_mail _ _ _ _ _ Hl0), Hl0.
Qed.

(** X2. When the message comes with a [from] of its own, [send] changes no
    object of the store at all, whether it rejects the message or hands it
    over. *)
Theorem send_keeps_message_with_from w mail attachments callback :
  constructed w ->
  non_empty_string (prop (heap w) mail "from") = true ->
  forall l c, heap w !! l = Some c ->
              heap (call_send mail attachments callback w).2 !! l = Some c.
Proof.
  intros Hw Hf l c Hl.
  destruct (rejection (heap w) (this w) mail attachments) as [e|] eqn:Hr.
  - by rewrite (send_rejected _ _ _ _ _ Hr).
  - rewrite (send_accepted _ _ _ _ Hr (constructed_transporter _ Hw)). cbn [snd heap].
    destruct (rejection_none_ref _ _ _ _ Hr) as (l0 & c0 & -> & Hl0).
    unfold store_sent. apply store_copy_old.
    rewrite store_written_same; [done|]. by apply non_empty_string_truthy.
Qed.

(** X3. A message that passes the checks is handed to the transport as a
    new object: no object of the store before, with the properties of the
    message, [from] as given or else the default sender, and [attachments]
    the argument of the call, which replaces an [attachments] property of
    the message itself. *)
Theorem send_hands_over_copy w mail attachments callback :
  constructed w ->
  all_hold listed_order (heap w) (this w) mail attachments = true ->
  exists l c d h',
    mail = VRef l /\ heap w !! l = Some c
    /\ call_send mail attachments callback w =
       (Normal VUndefined,
        World h' (this w) (trace w ++ [SendMail (transporter_ (this w)) (VRef d) callback]))
    /\ heap w !! d = None
    /\ h' !! d =
       Some (Cell KObject
               (<["attachments" := attachments]>
                  (<["from" := or_default (prop (heap w) mail "from") (noreply_ (this w))]>
                     (props c)))).
Proof.
  intros Hw Ha. rewrite all_hold_listed in Ha. apply earliest_violated_none in Ha.
  pose proof (rejection_earliest w mail attachments Hw) as Hr. rewrite Ha in Hr.
  destruct (rejection_none_ref _ _ _ _ Hr) as (l & c & -> & Hl).
  exists l, c, (data_loc (heap w) (this w) (VRef l)),
         (store_sent (heap w) (this w) (VRef l) attachments).
  split; [done|]. split; [done|].
  split; [apply send_accepted; [exact Hr | by apply constructed_transporter]|].
  split; [apply data_loc_unused|].
  by rewrite (store_sent_data _ _ _ _ _ Hl).
Qed.

(** X4. The default sender written into a message stays with it: once a
    message without [from] has gone through a mailer with a default sender,
    sending the same object again, through whatever mailer, hands it over
    with the first mailer's address as [from]. *)
Theorem send_substitution_sticks w mail attachments callback s w2 attachments2 callback2 :
  constructed w ->
  all_hold rest_of_checks (heap w) (this w) mail attachments = true ->
  XP.isVoid (prop (heap w) mail "from") = true ->
  default_sender (this w) = Some s ->
  constructed w2 ->
  heap w2 = heap (call_send mail attachments callback w).2 ->
  holds CAttachments (heap w2) (this w2) mail attachments2 = true ->
  exists h2 data2,
    call_send mail attachments2 callback2 w2 =
    (Normal VUndefined,
     World h2 (this w2) (trace w2 ++ [SendMail (transporter_ (this w2)) data2 callback2]))
    /\ prop h2 data2 "from" = VStr s.
Proof.
  intros Hw Hr Hf Hs Hw2 Hh Ha2.
  pose proof (rejection_missing_from _ _ _ Hw Hr Hf) as Hv. rewrite Hs in Hv.
  rewrite (send_accepted _ _ _ _ Hv (constructed_transporter _ Hw)) in Hh. cbn [snd heap] in Hh.
  apply rest_of_checks_hold in Hr as (H1 & H2 & H3 & H4 & H5 & H6 & _).
  destruct (isObject_ref _ _ H1) as (l & c & -> & Hl & Hk).
  pose proof (sent_from_default _ _ _ _ Hf Hs) as Hsf.
  assert (forall k, prop (heap w2) (VRef l) k =
                    if decide (k = "from") then VStr s else prop (heap w) (VRef l) k) as Hp.
  { intros k. rewrite Hh, (prop_sent_mail _ _ _ _ _ _ Hl). by rewrite Hsf. }
  assert (heap w2 !! l = Some (Cell (cell_kind c) (<["from" := VStr s]> (props c)))) as Hl2.
  { by rewrite Hh, (store_sent_mail _ _ _ _ _ Hl), Hsf. }
  assert (rejection (heap w2) (this w2) (VRef l) attachments2 = None) as Hv2.
  { rewrite (rejection_checks _ _ _ Hw2). cbn [holds] in *.
    pose proof (Hp "to") as Pto. rewrite decide_False in Pto by done.
    pose proof (Hp "cc") as Pcc. rewrite decide_False in Pcc by done.
    pose proof (Hp "bcc") as Pbcc. rewrite decide_False in Pbcc by done.
    pose proof (Hp "html") as Phtml. rewrite decide_False in Phtml by done.
    pose proof (Hp "text") as Ptext. rewrite decide_False in Ptext by done.
    pose proof (Hp "from") as Pfrom. rewrite decide_True in Pfrom by done.
    rewrite Pto, Pcc, Pbcc, Phtml, Ptext, Pfrom.
    assert (XP.isObject (heap w2) (VRef l) = true) as ->.
    { unfold XP.isObject. apply bool_decide_eq_true. simpl. rewrite Hl2. simpl. congruence. }
    rewrite H2, H3, H4, H5, H6, Ha2. cbn [negb XP.isVoid non_empty_string orb].
    pose proof (default_sender_non_empty _ _ Hs) as Hne.
    destruct (String.eqb s "") eqn:E; [by apply String.eqb_eq in E|]. reflexivity. }
  eexists _, _. split.
  { apply send_accepted; [exact Hv2 | by apply constructed_transporter]. }
  rewrite (prop_sent_data _ _ _ _ _ _ Hl2). simpl.
  unfold sent_from. rewrite Hp. rewrite decide_True by done. simpl.
  destruct (String.eqb s "") eqn:E; [|done].
  apply String.eqb_eq in E. by destruct (default_sender_non_empty _ _ Hs).
Qed.

(** * More on the constructor *)

Lemma first_invalid_none h opts :
  XP.isVoid opts = false -> (first_invalid h opts = None <-> acceptable h opts = true).
Proof.
  intros Hv. unfold first_invalid, acceptable. rewrite Hv. cbn [negb andb].
  repeat match goal with
  | |- context [if negb ?b then _ else _] => destruct b; cbn [negb andb]; [|split; done]
  end.
  done.
Qed.


(** X7. What the constructor stores: a falsy [hostname], [name], [noreply]
    or [port] of the record (the empty string and the port 0 among them)
    counts as omitted and gives "localhost" or [null]; [secure] is stored
    as the boolean that tells whether the given value is truthy; [auth] is
    stored as given. *)
Theorem new_normalises opts w0 v w :
  new_XPMailer opts w0 = (Normal v, w) ->
  auth_ (this w) = prop (heap w0) opts "auth"
  /\ hostname_ (this w) =
     (if truthy (prop (heap w0) opts "hostname") then prop (heap w0) opts "hostname"
      else VStr "localhost")
  /\ name_ (this w) =
     (if truthy (prop (heap w0) opts "name") then prop (heap w0) opts "name" else VNull)
  /\ noreply_ (this w) =
     (if truthy (prop (heap w0) opts "noreply") then prop (heap w0) opts "noreply" else VNull)
  /\ port_ (this w) =
     (if truthy (prop (heap w0) opts "port") then prop (heap w0) opts "port" else VNull)
  /\ secure_ (this w) = VBool (truthy (prop (heap w0) opts "secure"))
  /\ (truthy (prop (heap w0) opts "tls") = true -> tls_ (this w) = prop (heap w0) opts "tls").
Proof.
  intros (_ & -> & _)%new_normal. unfold made. cbv zeta.
  cbn [this set_slot configured options auth_ hostname_ name_ noreply_ port_ secure_ tls_
       transporter_].
  repeat split. intros Ht. unfold tls_value. by rewrite Ht.
Qed.

Ltac new_fail_step :=
  rewrite bind_run; erewrite assign_pure by eauto 10 with js; init_norm_goal.

(** X8. The constructor reports the first property it refuses, in the
    order [auth], [hostname], [name], [noreply], [port], [tls], with a
    validation error that names the property and the type wanted; by then
    it has added nothing to the store and created no transport. *)
Theorem new_reports_first_invalid opts w0 f :
  XP.isVoid opts = false ->
  first_invalid (heap w0) opts = Some f ->
  (new_XPMailer opts w0).1 = Thrown (ValidationError (field_name f) (wanted f))
  /\ heap (new_XPMailer opts w0).2 = heap w0
  /\ trace (new_XPMailer opts w0).2 = trace w0.
Proof.
  intros Hv Hf. unfold first_invalid in Hf.
  unfold new_XPMailer, initialize.
  rewrite bind_run. cbn [put_this].
  rewrite function_run, bind_run, set_options_run. cbn [heap this trace].
  new_fail_step.
  destruct (fine auth (heap w0) (prop (heap w0) opts "auth")) eqn:E1; cbn [negb] in Hf;
    [|simplify_eq; done].
  new_fail_step. unfold or_default in Hf.
  match type of Hf with (if negb ?b then _ else _) = _ => destruct b eqn:E2 end;
    cbn [negb] in Hf; [|simplify_eq; done].
  new_fail_step.
  match type of Hf with (if negb ?b then _ else _) = _ => destruct b eqn:E3 end;
    cbn [negb] in Hf; [|simplify_eq; done].
  new_fail_step.
  match type of Hf with (if negb ?b then _ else _) = _ => destruct b eqn:E4 end;
    cbn [negb] in Hf; [|simplify_eq; done].
  new_fail_step.
  match type of Hf with (if negb ?b then _ else _) = _ => destruct b eqn:E5 end;
    cbn [negb] in Hf; [|simplify_eq; done].
  rewrite bind_run. erewrite assign_run.
  2:{ apply or_object_run. eauto 10 with js. }
  init_norm_goal. rewrite fine_tls_value.
  match type of Hf with (if negb ?b then _ else _) = _ => destruct b eqn:E6 end;
    cbn [negb] in Hf; [discriminate Hf|].
  simplify_eq. cbn [fst snd heap trace field_name wanted].
  split; [done|]. split; [|done].
  unfold tls_store. apply orb_false_iff in E6 as [E6 _].
  apply negb_false_iff in E6. by rewrite E6.
Qed.

Lemma options_loc_fresh h : h !! options_loc h = None.
Proof. unfold options_loc. apply not_elem_of_dom, is_fresh. Qed.

Lemma handle_loc_fresh h m : store_options h m !! handle_loc h m = None.
Proof. unfold handle_loc. apply not_elem_of_dom, is_fresh. Qed.

Lemma handle_loc_new h m l c : h !! l = Some c -> handle_loc h m <> l.
Proof.
  intros H E. pose proof (handle_loc_fresh h m) as F. rewrite E in F.
  unfold store_options in F. destruct (decide (options_loc h = l)) as [<-|N].
  - by rewrite lookup_insert_eq in F.
  - rewrite lookup_insert_ne in F by done. congruence.
Qed.

Lemma handle_loc_ne_options h m : handle_loc h m <> options_loc h.
Proof.
  intros E. pose proof (handle_loc_fresh h m) as F. rewrite E in F.
  unfold store_options in F. by rewrite lookup_insert_eq in F.
Qed.

Lemma tls_store_none h x l : tls_store h x !! l = None -> h !! l = None.
Proof.
  intros H. destruct (h !! l) as [c|] eqn:E; [|done].
  destruct (kinds_kept_tls_store h x l c E) as (c' & H' & _). congruence.
Qed.

(** X9. A construction that returns has created one transport, on options
    written to a new object: [auth], [name], [port], [secure] and [tls] as
    the instance holds them, the hostname under the key [host], and no
    default sender; the handle made is what the instance keeps as its
    transporter. *)
Theorem new_creates_transport opts w0 v w :
  new_XPMailer opts w0 = (Normal v, w) ->
  exists o t,
    trace w = trace w0 ++ [CreateTransport (VRef o) (VRef t)]
    /\ transporter_ (this w) = VRef t
    /\ o <> t /\ heap w0 !! o = None /\ heap w0 !! t = None
    /\ kind_at (heap w) (VRef o) = Some KObject
    /\ prop (heap w) (VRef o) "auth" = auth_ (this w)
    /\ prop (heap w) (VRef o) "host" = hostname_ (this w)
    /\ prop (heap w) (VRef o) "name" = name_ (this w)
    /\ prop (heap w) (VRef o) "port" = port_ (this w)
    /\ prop (heap w) (VRef o) "secure" = secure_ (this w)
    /\ prop (heap w) (VRef o) "tls" = tls_ (this w)
    /\ prop (heap w) (VRef o) "hostname" = VUndefined
    /\ prop (heap w) (VRef o) "noreply" = VUndefined.
Proof.
  intros (_ & -> & _)%new_normal. unfold made. cbv zeta.
  set (h := tls_store (heap w0) (prop (heap w0) opts "tls")).
  set (m := configured (heap w0) opts).
  exists (options_loc h), (handle_loc h m). cbn [heap this trace].
  split; [done|]. split; [done|].
  split; [apply not_eq_sym, handle_loc_ne_options|].
  split; [eapply tls_store_none, options_loc_fresh|].
  split.
  { eapply tls_store_none. pose proof (handle_loc_fresh h m) as F.
    unfold store_options in F. destruct (decide (options_loc h = handle_loc h m)) as [E|N].
    - rewrite <- E. apply options_loc_fresh.
    - by rewrite lookup_insert_ne in F. }
  assert (store_handle h m !! options_loc h = Some (Cell KObject (transport_options m))) as Ho.
  { unfold store_handle. rewrite lookup_insert_ne by apply handle_loc_ne_options.
    unfold store_options. by rewrite lookup_insert_eq. }
  split; [simpl; by rewrite Ho|].
  unfold prop, props_at. rewrite Ho. cbn [from_option props].
  repeat split.
Qed.

(** X5. The class invariant.  On an instance in use, whatever has been
    assigned to it and sent through it: [auth], [tls] and the transporter
    are objects, the hostname is a string and not empty, [name] and
    [noreply] are strings or void, the port is a non-negative integer or
    void, and [secure] is a boolean. *)
Theorem instance_invariant w :
  reachable w ->
  XP.isObject (heap w) (auth_ (this w)) = true
  /\ (exists s, hostname_ (this w) = VStr s /\ s <> "")
  /\ (XP.isVoid (name_ (this w)) = true \/ exists s, name_ (this w) = VStr s)
  /\ (XP.isVoid (noreply_ (this w)) = true \/ exists s, noreply_ (this w) = VStr s)
  /\ (XP.isVoid (port_ (this w)) = true \/ XP.isInt (port_ (this w)) (Some true) = true)
  /\ (exists b, secure_ (this w) = VBool b)
  /\ XP.isObject (heap w) (tls_ (this w)) = true
  /\ XP.isObject (heap w) (transporter_ (this w)) = true.
Proof.
  intros (H1 & H2 & H3 & H4 & H5 & H6 & H7 & H8)%reachable_constructed%invariant_parts.
  split; [done|]. split.
  { destruct (hostname_ (this w)) as [| | | | s | |]; try discriminate H2.
    exists s. split; [done|]. intros ->. discriminate H2. }
  split.
  { destruct (name_ (this w)); try discriminate H3; eauto. }
  split.
  { destruct (noreply_ (this w)); try discriminate H4; eauto. }
  split.
  { by apply orb_true_iff in H5. }
  split; [|done].
  destruct (secure_ (this w)); try discriminate H6; eauto.
Qed.

Lemma constructed_shape h m :
  invariant h m = true ->
  exists la s b lt lr,
    auth_ m = VRef la /\ hostname_ m = VStr s /\ truthy (VStr s) = true
    /\ secure_ m = VBool b /\ tls_ m = VRef lt /\ transporter_ m = VRef lr
    /\ is_Some (h !! lr).
Proof.
  intros (H1 & H2 & _ & _ & _ & H6 & H7 & H8)%invariant_parts.
  destruct (isObject_ref _ _ H1) as (la & ? & -> & _).
  destruct (isObject_ref _ _ H7) as (lt & ? & -> & _).
  destruct (isObject_ref _ _ H8) as (lr & cr & -> & Hr & _).
  destruct (hostname_ m) as [| | | | s | |]; try discriminate H2.
  destruct (secure_ m) as [| |b| | | |]; try discriminate H6.
  exists la, s, b, lt, lr. repeat split; eauto.
Qed.

(** X10. A further run of [initialize] that returns has created a second
    transport and kept the first one: the new handle is dropped. *)
Theorem initialize_again w opts v w' :
  reachable w ->
  function (initialize opts) w = (Normal v, w') ->
  transporter_ (this w') = transporter_ (this w)
  /\ exists o t, trace w' = trace w ++ [CreateTransport o t]
                 /\ t <> transporter_ (this w)
                 /\ kind_at (heap w) t = None.
Proof.
  intros Hw%reachable_constructed H.
  destruct w as [h m t0]. unfold constructed in Hw. cbn [heap this] in Hw.
  destruct (constructed_shape _ _ Hw) as (la & s & b & lt & lr & Ea & Eh & Ts & Es & Et & Er & [cr Hr]).
  destruct m as [o0 a hn n nr p sc tl tr]. cbn in Ea, Eh, Es, Et, Er. subst.
  unfold initialize in H.
  rewrite function_run, bind_run, set_options_run in H. cbn [heap this trace] in H.
  destruct (XP.isVoid opts) eqn:Hv.
  { rewrite bind_run in H. erewrite assign_thrown in H.
    2:{ eapply get_void; [apply pure_this_options | exact Hv]. }
    discriminate H. }
  do 5 init_step H.
  rewrite bind_run in H. erewrite assign_run in H.
  2:{ apply or_object_run. eauto 10 with js. }
  init_norm H. init_split H.
  init_step H.
  erewrite assign_run in H by apply createTransport_run.
  init_norm H. init_split H. init_norm H.
  match type of H with context [handle_loc _ ?m] => set (m7 := m) in * end.
  injection H as <- <-. cbn [this options transporter_ trace heap].
  split; [done|].
  eexists _, _. split; [reflexivity|].
  assert (forall l c, h !! l = Some c ->
            handle_loc (tls_store h (prop h opts "tls")) m7 <> l) as Hnew.
  { intros l c Hl. destruct (kinds_kept_tls_store h (prop h opts "tls") l c Hl) as (c' & Hc & _).
    eapply handle_loc_new, Hc. }
  split.
  - intros [= E]. by apply (Hnew lr cr Hr).
  - simpl. destruct (h !! handle_loc _ _) as [c|] eqn:E; [|done].
    by destruct (Hnew _ _ E).
Qed.

(** * Assignments on an instance in use *)

Lemma truthy_defined v : truthy v = true -> XP.isDefined v = true.
Proof. by destruct v. Qed.

(** The constructor leaves no declared property undefined. *)
Lemma made_defined opts w0 v w f :
  new_XPMailer opts w0 = (Normal v, w) -> XP.isDefined (slot f (this w)) = true.
Proof.
  intros H. pose proof (new_constructed _ _ _ _ H) as Hw.
  apply new_normal in H as (_ & -> & _).
  unfold constructed in Hw.
  destruct (constructed_shape _ _ Hw) as (la & s & b & lt & lr & Ea & Eh & _ & Es & Et & Er & _).
  destruct f; cbn [slot]; rewrite ?Ea, ?Eh, ?Es, ?Et, ?Er; try reflexivity;
    unfold made; cbv zeta;
    cbn [this set_slot configured name_ noreply_ port_]; unfold or_default;
    match goal with
    | |- context [if truthy ?x then _ else _] => destruct (truthy x) eqn:E
    end; by auto using truthy_defined.
Qed.

(** Nor does any use of the instance. *)
Lemma reachable_defined w f : reachable w -> XP.isDefined (slot f (this w)) = true.
Proof.
  induction 1 as [w0 opts v w H | w g val r w' Hr IH H | w opts r w' Hr IH H
                 | w mail att cb r w' Hr IH H | w h' _ IH H].
  - eapply made_defined, H.
  - pose proof (steady_assign g (lit val) (outside_lit val) w (reachable_constructed _ Hr)) as E.
    rewrite H in E. destruct E as (_ & _ & F). cbn [snd] in F. by rewrite (F f IH).
  - pose proof (steady_function _ (steady_initialize opts) w (reachable_constructed _ Hr)) as E.
    rewrite H in E. destruct E as (_ & _ & F). cbn [snd] in F. by rewrite (F f IH).
  - pose proof (steady_send mail att cb w (reachable_constructed _ Hr)) as E.
    rewrite H in E. destruct E as (_ & _ & F). cbn [snd] in F. by rewrite (F f IH).
  - exact IH.
Qed.

(** X15. The configuration cannot be changed after construction.  On an
    instance in use every declared property holds a defined value ([null]
    where the record gave nothing), so that an assignment to any of them,
    of whatever value, is ignored and raises nothing, and a further run of
    [initialize], with any record and however it ends, leaves all of them
    as they were. *)
Theorem configuration_immutable w :
  reachable w ->
  (forall f, XP.isDefined (slot f (this w)) = true)
  /\ (forall f val, assign descriptor f (lit val) w = (Normal tt, w))
  /\ (forall opts f, slot f (this (function (initialize opts) w).2) = slot f (this w)).
Proof.
  intros Hr. pose proof (reachable_constructed _ Hr) as Hw.
  split; [intros f; by apply reachable_defined|]. split.
  - intros f val. pose proof (reachable_defined w f Hr) as Hd.
    rewrite (assign_pure f _ w val) by apply pure_lit.
    rewrite (stored_defined _ _ _ Hw Hd), (slot_accepted _ _ Hw).
    unfold assigned. rewrite (stored_defined _ _ _ Hw Hd), set_slot_same. by destruct w.
  - intros opts f.
    destruct (steady_function _ (steady_initialize opts) w Hw) as (_ & _ & Hf).
    apply Hf. by apply reachable_defined.
Qed.

(** X16. A default sender cannot be supplied after construction: on an
    instance in use without one, an assignment to [noreply] is ignored, and
    a message without [from] that is otherwise in order is still answered
    with the error for [mail.from], and not sent. *)
Theorem late_default_sender_ignored w s mail attachments callback :
  reachable w ->
  default_sender (this w) = None ->
  all_hold rest_of_checks (heap w) (this w) mail attachments = true ->
  XP.isVoid (prop (heap w) mail "from") = true ->
  exists w1,
    assign descriptor noreply (lit (VStr s)) w = (Normal tt, w1)
    /\ default_sender (this w1) = None
    /\ call_send mail attachments callback w1 =
       (Normal VUndefined,
        World (heap w1) (this w1)
              (trace w1 ++ [Call callback [VErr (ValidationError "mail.from" "string")]])).
Proof.
  intros Hr Hn Ha Hf. pose proof (reachable_constructed _ Hr) as Hw.
  pose proof (reachable_defined w noreply Hr) as Hd.
  exists w. split; [|split; [exact Hn|]].
  - rewrite (assign_pure noreply _ w (VStr s)) by apply pure_lit.
    rewrite (stored_defined _ _ _ Hw Hd), (slot_accepted _ _ Hw).
    unfold assigned. rewrite (stored_defined _ _ _ Hw Hd), set_slot_same. by destruct w.
  - apply send_rejected.
    pose proof (rejection_missing_from w mail attachments Hw Ha Hf) as Hv.
    by rewrite Hn in Hv.
Qed.

(** * More on the earlier class *)

(** X12. On a mailer without default sender the two classes treat a
    message alike: what the later [send] hands to the transport, the
    earlier one hands over in the same way, with the same store after;
    what the later one rejects, the earlier one rejects too, with an error
    of its own kind. *)
Theorem classes_agree_without_default w mail attachments callback :
  constructed w ->
  default_sender (this w) = None ->
  (rejection (heap w) (this w) mail attachments = None ->
   function (lib_index.send mail attachments callback) w =
   call_send mail attachments callback w)
  /\ (forall e, rejection (heap w) (this w) mail attachments = Some e ->
      exists c msg,
        function (lib_index.send mail attachments callback) w =
        (Normal VUndefined,
         World (heap w) (this w) (trace w ++ [Call callback [VErr (XPError c msg)]]))).
Proof.
  intros Hw Hd. split.
  - intros Hr. symmetry. by apply earlier_send_alike.
  - intros e Hr. pose proof (truthy_noreply _ Hw) as Hn. rewrite Hd in Hn.
    destruct (earlier_rejection (heap w) mail attachments) as [e'|] eqn:Hr'.
    + assert (exists c msg, e' = XPError c msg) as (c & msg & ->).
      { unfold earlier_rejection in Hr'.
        repeat match type of Hr' with
        | (if ?b then _ else _) = _ => destruct b; [injection Hr' as <-; eauto|]
        end. discriminate Hr'. }
      exists c, msg. by apply earlier_send_rejected.
    + apply (earlier_accepts_alike _ (this w)) in Hr'; [congruence | exact Hn].
Qed.

(** X13. [send] of the earlier class writes to no object of the store: the
    message and every other object are after the call as before. *)
Theorem earlier_send_writes_nothing w mail attachments callback :
  constructed w ->
  this (function (lib_index.send mail attachments callback) w).2 = this w
  /\ forall l c, heap w !! l = Some c ->
       heap (function (lib_index.send mail attachments callback) w).2 !! l = Some c.
Proof.
  intros Hw. destruct (earlier_rejection (heap w) mail attachments) as [e|] eqn:Hr.
  - by rewrite (earlier_send_rejected _ _ _ _ _ Hr).
  - rewrite (earlier_send_accepted _ _ _ _ Hr (constructed_transporter _ Hw)).
    cbn [snd heap this]. split; [done|]. intros l c Hl. by apply store_copy_old.
Qed.

(** X18. The earlier [send] has the slip of the later one: a [bcc] that is
    not a string is reported under the name of [cc]. *)
Theorem earlier_send_bcc_reported_as_cc w mail attachments callback :
  XP.isObject (heap w) mail = true ->
  non_empty_string (prop (heap w) mail "from") = true ->
  non_empty_string (prop (heap w) mail "to") = true ->
  optional_string (prop (heap w) mail "cc") = true ->
  optional_string (prop (heap w) mail "bcc") = false ->
  function (lib_index.send mail attachments callback) w =
  (Normal VUndefined,
   World (heap w) (this w)
         (trace w ++ [Call callback [VErr (XPError 500 (quoted "email.cc" +:+ " must be string."))]])).
Proof.
  intros Hm Hf Ht Hc Hb. apply earlier_send_rejected.
  unfold earlier_rejection. rewrite Hm, !isString_non_empty, Hf, Ht. cbn [negb].
  unfold optional_string in Hc, Hb.
  apply orb_true_iff in Hc. apply orb_false_iff in Hb as [Hb1 Hb2].
  rewrite Hb1, Hb2. cbn [negb andb].
  destruct Hc as [-> | ->]; cbn [negb andb]; by rewrite ?andb_false_r.
Qed.


(** * The constructor of the earlier class *)

Lemma earlier_set_run f val w :
  f <> noreply -> pure (set (lib_index.descriptor f) val) w (stored f (this w) val).
Proof.
  intros Hf. destruct f; try done; cbn [lib_index.descriptor set stored];
    (eapply pure_eq; [solve [eauto 10 with js]|]); cbn [slot truthy]; try reflexivity.
  by rewrite negb_involutive.
Qed.

Lemma earlier_assign_alike f e w :
  f <> noreply -> assign lib_index.descriptor f e w = assign descriptor f e w.
Proof.
  intros Hf. unfold assign. rewrite !bind_run. destruct (e w) as [[v|v|err] w1]; try reflexivity.
  rewrite (bind_pure _ _ _ _ (earlier_set_run f v w1 Hf)).
  rewrite (bind_pure _ _ _ _ (set_run f v w1)).
  destruct f; try done; reflexivity.
Qed.

Lemma bind_alike {A B} (m m' : M A) (k k' : A -> M B) w :
  m w = m' w -> (forall a w1, k a w1 = k' a w1) -> (m ≫= k) w = (m' ≫= k') w.
Proof. intros Hm Hk. rewrite !bind_run, Hm. by destruct (m' w) as [[a|v|e] w1]. Qed.

(** The earlier [initialize] is the later one without the assignment of
    [noreply]. *)
Lemma earlier_initialize opts w :
  lib_index.initialize opts w =
  ((m ← get_this; put_this (set_options opts m));;
   assign descriptor auth (get this_options "auth");;
   assign descriptor hostname (js_or (get this_options "hostname") (lit (VStr "localhost")));;
   assign descriptor name (js_or (get this_options "name") (lit VNull));;
   assign descriptor port (js_or (get this_options "port") (lit VNull));;
   assign descriptor tls (js_or (get this_options "tls") (object_of []));;
   assign descriptor secure (js_or (get this_options "secure") (lit (VBool false)));;
   assign descriptor transporter
    (nodemailer_createTransport
       (object_of [("auth", this_ auth);
                   ("host", this_ hostname);
                   ("name", this_ name);
                   ("port", this_ port);
                   ("secure", this_ secure);
                   ("tls", this_ tls)]))) w.
Proof.
  unfold lib_index.initialize.
  apply bind_alike; [reflexivity|]. intros _ w1.
  do 6 (apply bind_alike; [by apply earlier_assign_alike|]; intros _ ?).
  by apply earlier_assign_alike.
Qed.

Lemma earlier_new_accepts opts w0 :
  earlier_acceptable (heap w0) opts = true ->
  earlier_new opts w0 = (Normal VUndefined, earlier_made opts w0).
Proof.
  unfold earlier_acceptable. rewrite !andb_true_iff, negb_true_iff.
  intros (((((Hv & Ha) & Hh) & Hn) & Hp) & Ht).
  rewrite <- fine_tls_value in Ht.
  unfold earlier_new.
  rewrite bind_run. cbn [put_this].
  rewrite function_run, earlier_initialize, bind_run, set_options_run. cbn [heap this trace].
  rewrite bind_run. erewrite assign_pure by eauto 10 with js. init_norm_goal. rewrite Ha.
  rewrite bind_run. erewrite assign_pure by eauto 10 with js. init_norm_goal.
  unfold or_default in Hh. rewrite Hh.
  rewrite bind_run. erewrite assign_pure by eauto 10 with js. init_norm_goal.
  unfold or_default in Hn. rewrite Hn.
  rewrite bind_run. erewrite assign_pure by eauto 10 with js. init_norm_goal.
  unfold or_default in Hp. rewrite Hp.
  rewrite bind_run. erewrite assign_run.
  2:{ apply or_object_run. eauto 10 with js. }
  init_norm_goal. rewrite Ht.
  rewrite bind_run. erewrite assign_pure by eauto 10 with js. init_norm_goal.
  cbn [fine].
  erewrite assign_run by apply createTransport_run.
  init_norm_goal. cbn [fine]. rewrite handle_is_object.
  assert (exists l c, opts = VRef l /\ heap w0 !! l = Some c) as Ho.
  { apply (prop_some _ _ "auth"). intros E. rewrite E in *. discriminate. }
  rewrite (prop_tls_store _ _ _ _ Ho).
  change (if truthy (prop (heap w0) opts "secure") then prop (heap w0) opts "secure"
          else VBool false)
    with (or_default (prop (heap w0) opts "secure") (VBool false)).
  rewrite truthy_or_false. reflexivity.
Qed.

Lemma acceptable_earlier h opts :
  acceptable h opts = true -> earlier_acceptable h opts = true.
Proof.
  unfold acceptable, earlier_acceptable. rewrite !andb_true_iff. tauto.
Qed.

(** X14. The earlier constructor against the later one: from a record the
    later constructor takes, the earlier one builds the same instance but
    for [noreply], which it leaves undefined, in the same store and with
    the same call to [createTransport]. *)
Theorem earlier_new_alike opts w0 v w :
  new_XPMailer opts w0 = (Normal v, w) ->
  earlier_new opts w0 =
  (Normal v, World (heap w) (set_slot noreply VUndefined (this w)) (trace w)).
Proof.
  intros H. pose proof (new_normal_acceptable _ _ _ _ H) as Ha.
  rewrite (new_accepts _ _ Ha) in H. injection H as <- <-.
  by apply earlier_new_accepts, acceptable_earlier.
Qed.



(** * The theorems on the sample data *)

(** C1 on the sample data: the message 5 has [to] only; the mailer with a
    [noreply] address forwards it with that address as [from], the mailer
    without one answers with the error for [mail.from]. *)
Lemma send_missing_from_witness :
  constructed noreply_mailer
  /\ all_hold rest_of_checks (heap noreply_mailer) (this noreply_mailer) (VRef 5) VUndefined = true
  /\ XP.isVoid (prop (heap noreply_mailer) (VRef 5) "from") = true
  /\ (exists h' data,
        call_send (VRef 5) VUndefined (VRef 4) noreply_mailer =
        (Normal VUndefined,
         World h' (this noreply_mailer)
               (trace noreply_mailer ++ [SendMail (transporter_ (this noreply_mailer)) data (VRef 4)]))
        /\ prop h' data "from" = VStr "noreply@example.com"
        /\ prop h' data "attachments" = VUndefined
        /\ forall k, k <> "from" -> k <> "attachments" ->
                     prop h' data k = prop (heap noreply_mailer) (VRef 5) k)
  /\ call_send (VRef 5) VUndefined (VRef 4) plain_mailer =
     (Normal VUndefined,
      World (heap plain_mailer) (this plain_mailer)
            (trace plain_mailer ++ [Call (VRef 4) [VErr (ValidationError "mail.from" "string")]])).
Proof.
  assert (constructed noreply_mailer) as H1 by (vm_compute; reflexivity).
  assert (all_hold rest_of_checks (heap noreply_mailer) (this noreply_mailer) (VRef 5) VUndefined
          = true) as H2 by (vm_compute; reflexivity).
  assert (XP.isVoid (prop (heap noreply_mailer) (VRef 5) "from") = true) as H3
    by (vm_compute; reflexivity).
  split; [exact H1|]. split; [exact H2|]. split; [exact H3|]. split.
  - exact (send_missing_from noreply_mailer (VRef 5) VUndefined (VRef 4) H1 H2 H3).
  - apply (send_missing_from plain_mailer (VRef 5) VUndefined (VRef 4));
      vm_compute; reflexivity.
Defined.

(** C9 on the sample data: after the message 5 went through the mailer
    with a [noreply] address, its own [from] holds that address, and the
    transport got another object. *)
Lemma send_writes_from_in_place_witness :
  constructed noreply_mailer
  /\ default_sender (this noreply_mailer) = Some "noreply@example.com"
  /\ prop (heap noreply_mailer) (VRef 5) "from" = VUndefined
  /\ exists h' data,
       call_send (VRef 5) VUndefined (VRef 4) noreply_mailer =
       (Normal VUndefined,
        World h' (this noreply_mailer)
              (trace noreply_mailer ++ [SendMail (transporter_ (this noreply_mailer)) data (VRef 4)]))
       /\ prop h' (VRef 5) "from" = VStr "noreply@example.com"
       /\ data <> VRef 5.
Proof.
  split; [vm_compute; reflexivity|]. split; [vm_compute; reflexivity|].
  split; [vm_compute; reflexivity|].
  destruct (send_writes_from_in_place noreply_mailer (VRef 5) VUndefined (VRef 4)
              "noreply@example.com") as (h' & data & H & Hf & _ & _ & Hd & _);
    [vm_compute; reflexivity ..|].
  exists h', data. split; [exact H|]. split; [exact Hf | exact Hd].
Defined.

(** C10 on the sample data: the message 8 has the empty string as [from];
    the mailer with a [noreply] address answers with the error for
    [mail.from]. *)
Lemma send_empty_from_witness :
  default_sender (this noreply_mailer) = Some "noreply@example.com"
  /\ prop (heap noreply_mailer) (VRef 8) "from" = VStr ""
  /\ call_send (VRef 8) VUndefined (VRef 4) noreply_mailer =
     (Normal VUndefined,
      World (heap noreply_mailer) (this noreply_mailer)
            (trace noreply_mailer ++ [Call (VRef 4) [VErr (ValidationError "mail.from" "string")]])).
Proof.
  split; [vm_compute; reflexivity|]. split; [vm_compute; reflexivity|].
  apply (send_empty_from noreply_mailer (VRef 8) VUndefined (VRef 4)); vm_compute; reflexivity.
Defined.

(** C2 on the sample data: the message 6 has no [from] and a number as
    [cc]; on the mailer without [noreply] the first failed check is the one
    on [cc], and its error is delivered.  The message 7 has a number as
    [bcc] and is sent with a string as [attachments]: the first failed
    check is the one on [bcc], and the error delivered is the one the body
    builds for it. *)
Lemma send_reports_first_failure_witness :
  constructed plain_mailer
  /\ earliest_violated send_order (heap plain_mailer) (this plain_mailer) (VRef 6) VUndefined
     = Some CCc
  /\ (exists e,
        call_send (VRef 6) VUndefined (VRef 4) plain_mailer =
        (Normal VUndefined,
         World (heap plain_mailer) (this plain_mailer) (trace plain_mailer ++ [Call (VRef 4) [VErr e]]))
        /\ e = ValidationError "mail.cc" "string")
  /\ earliest_violated send_order (heap plain_mailer) (this plain_mailer) (VRef 7) (VStr "a")
     = Some CBcc
  /\ holds CAttachments (heap plain_mailer) (this plain_mailer) (VRef 7) (VStr "a") = false
  /\ exists e,
       call_send (VRef 7) (VStr "a") (VRef 4) plain_mailer =
       (Normal VUndefined,
        World (heap plain_mailer) (this plain_mailer) (trace plain_mailer ++ [Call (VRef 4) [VErr e]]))
       /\ e = ValidationError "mail.cc" "string".
Proof.
  assert (constructed plain_mailer) as H1 by (vm_compute; reflexivity).
  split; [exact H1|]. split; [vm_compute; reflexivity|].
  split; [exact (send_reports_first_failure plain_mailer (VRef 6) VUndefined (VRef 4) H1)|].
  split; [vm_compute; reflexivity|]. split; [vm_compute; reflexivity|].
  exact (send_reports_first_failure plain_mailer (VRef 7) (VStr "a") (VRef 4) H1).
Defined.

(** C3 on the sample data: the message 9 has no [to] and is answered with
    the error for [mail.to]; the message 10 is in order and goes to the
    transport. *)
Lemma send_validates_first_witness :
  constructed noreply_mailer
  /\ XP.isVoid (prop (heap noreply_mailer) (VRef 9) "to") = true
  /\ call_send (VRef 9) VUndefined (VRef 4) noreply_mailer =
     (Normal VUndefined,
      World (heap noreply_mailer) (this noreply_mailer)
            (trace noreply_mailer ++ [Call (VRef 4) [VErr (ValidationError "mail.to" "string")]]))
  /\ exists h' data,
       call_send (VRef 10) VUndefined (VRef 4) noreply_mailer =
       (Normal VUndefined,
        World h' (this noreply_mailer)
              (trace noreply_mailer ++ [SendMail (transporter_ (this noreply_mailer)) data (VRef 4)])).
Proof.
  assert (constructed noreply_mailer) as H1 by (vm_compute; reflexivity).
  split; [exact H1|]. split; [vm_compute; reflexivity|]. split.
  - apply (proj2 (send_validates_first noreply_mailer (VRef 9) VUndefined (VRef 4) H1));
      vm_compute; reflexivity.
  - exact (proj1 (send_validates_first noreply_mailer (VRef 10) VUndefined (VRef 4) H1)).
Defined.

(** C5 on the sample data: the message 10 through a transport that
    succeeds. *)
Lemma send_calls_back_once_witness :
  constructed plain_mailer
  /\ exists h' ev args,
       call_send (VRef 10) VUndefined (VRef 4) plain_mailer =
       (Normal VUndefined, World h' (this plain_mailer) (trace plain_mailer ++ [ev]))
       /\ invocations (fun data => Success data) (VRef 4) (trace plain_mailer ++ [ev]) =
          invocations (fun data => Success data) (VRef 4) (trace plain_mailer) ++ [args].
Proof.
  assert (constructed plain_mailer) as H1 by (vm_compute; reflexivity).
  split; [exact H1|].
  destruct (send_calls_back_once (fun data => Success data) plain_mailer (VRef 10) VUndefined
              (VRef 4) H1) as (h' & ev & args & H & Hi & _).
  exists h', ev, args. split; [exact H | exact Hi].
Defined.

(** C6 on the sample data: the record 2 has [auth] only. *)
Lemma new_applies_defaults_witness :
  acceptable sample_store (VRef 2) = true
  /\ exists w,
       new_XPMailer (VRef 2) (World sample_store blank []) = (Normal VUndefined, w)
       /\ hostname_ (this w) = VStr "localhost"
       /\ secure_ (this w) = VBool false
       /\ exists l, tls_ (this w) = VRef l
                    /\ sample_store !! l = None
                    /\ heap w !! l = Some (Cell KObject ∅).
Proof.
  assert (acceptable sample_store (VRef 2) = true) as H by (vm_compute; reflexivity).
  split; [exact H|].
  destruct (new_applies_defaults (VRef 2) (World sample_store blank []) H)
    as (w & Hw & H1 & H2 & H3).
  exists w. split; [exact Hw|].
  split; [apply H1; vm_compute; reflexivity|].
  split; [apply H2; vm_compute; reflexivity|].
  apply H3. vm_compute. reflexivity.
Defined.

(** C7 on the sample data: the record 13 has no [auth]. *)
Lemma new_requires_auth_witness :
  XP.isVoid (VRef 13) = false
  /\ XP.isObject sample_store (prop sample_store (VRef 13) "auth") = false
  /\ new_XPMailer (VRef 13) (World sample_store blank []) =
     (Thrown (ValidationError "auth" "Object"),
      World sample_store (set_options (VRef 13) blank) []).
Proof.
  split; [reflexivity|]. split; [vm_compute; reflexivity|].
  apply (new_requires_auth (VRef 13) (World sample_store blank []));
    vm_compute; reflexivity.
Defined.

(** C8 on the sample data: the mailer made with host "smtp.example.com"
    keeps it when "mail.example.org" is assigned, and when [initialize]
    runs again with the record 12. *)
Lemma fields_write_once_witness :
  reachable hosted_mailer
  /\ hostname_ (this hosted_mailer) = VStr "smtp.example.com"
  /\ assign descriptor hostname (lit (VStr "mail.example.org")) hosted_mailer
     = (Normal tt, hosted_mailer)
  /\ prop (heap hosted_mailer) (VRef 12) "hostname" = VStr "mail.example.org"
  /\ hostname_ (this (function (initialize (VRef 12)) hosted_mailer).2)
     = hostname_ (this hosted_mailer).
Proof.
  assert (reachable hosted_mailer) as H.
  { apply (reach_new (World sample_store blank []) (VRef 11) VUndefined).
    vm_compute. reflexivity. }
  split; [exact H|]. split; [vm_compute; reflexivity|].
  destruct (fields_write_once hosted_mailer H) as [H1 H2].
  split; [apply H1; vm_compute; reflexivity|].
  split; [vm_compute; reflexivity|].
  exact (proj1 (H2 (VRef 12))).
Defined.

(** * The further theorems on the sample data *)

(** X1 on the sample data: the message 9 through the mailer made from the
    record 3. *)
Lemma send_frame_witness :
  constructed office_mailer
  /\ this (call_send (VRef 9) (VRef 8) (VRef 7) office_mailer).2 = this office_mailer
  /\ (forall l c, heap office_mailer !! l = Some c -> VRef 9 <> VRef l ->
                  heap (call_send (VRef 9) (VRef 8) (VRef 7) office_mailer).2 !! l = Some c)
  /\ (forall k, k <> "from" ->
                prop (heap (call_send (VRef 9) (VRef 8) (VRef 7) office_mailer).2) (VRef 9) k =
                prop (heap office_mailer) (VRef 9) k)
  /\ kind_at (heap (call_send (VRef 9) (VRef 8) (VRef 7) office_mailer).2) (VRef 9) =
     kind_at (heap office_mailer) (VRef 9).
Proof.
  assert (constructed office_mailer) as H by (vm_compute; reflexivity).
  split; [exact H|].
  exact (send_frame office_mailer (VRef 9) (VRef 8) (VRef 7) H).
Defined.

(** X2 on the sample data: the message 10 has a [from] of its own. *)
Lemma send_keeps_message_with_from_witness :
  constructed noreply_mailer
  /\ non_empty_string (prop (heap noreply_mailer) (VRef 10) "from") = true
  /\ forall l c, heap noreply_mailer !! l = Some c ->
                 heap (call_send (VRef 10) VUndefined (VRef 4) noreply_mailer).2 !! l = Some c.
Proof.
  assert (constructed noreply_mailer) as H1 by (vm_compute; reflexivity).
  assert (non_empty_string (prop (heap noreply_mailer) (VRef 10) "from") = true) as H2
    by (vm_compute; reflexivity).
  split; [exact H1|]. split; [exact H2|].
  exact (send_keeps_message_with_from noreply_mailer (VRef 10) VUndefined (VRef 4) H1 H2).
Defined.

(** X3 on the sample data: the message 9 has the array 10 as its own
    [attachments] and is sent with the array 8. *)
Lemma send_hands_over_copy_witness :
  constructed office_mailer
  /\ all_hold listed_order (heap office_mailer) (this office_mailer) (VRef 9) (VRef 8) = true
  /\ exists l c d h',
       VRef 9 = VRef l /\ heap office_mailer !! l = Some c
       /\ call_send (VRef 9) (VRef 8) (VRef 7) office_mailer =
          (Normal VUndefined,
           World h' (this office_mailer)
                 (trace office_mailer ++
                  [SendMail (transporter_ (this office_mailer)) (VRef d) (VRef 7)]))
       /\ heap office_mailer !! d = None
       /\ h' !! d =
          Some (Cell KObject
                  (<["attachments" := VRef 8]>
                     (<["from" := or_default (prop (heap office_mailer) (VRef 9) "from")
                                             (noreply_ (this office_mailer))]>
                        (props c)))).
Proof.
  assert (constructed office_mailer) as H1 by (vm_compute; reflexivity).
  assert (all_hold listed_order (heap office_mailer) (this office_mailer) (VRef 9) (VRef 8)
          = true) as H2 by (vm_compute; reflexivity).
  split; [exact H1|]. split; [exact H2|].
  exact (send_hands_over_copy office_mailer (VRef 9) (VRef 8) (VRef 7) H1 H2).
Defined.

(** X4 on the sample data: the message 9 goes through the mailer made from
    the record 3, and then through the one made from the record 4, which
    has no default sender. *)
Lemma send_substitution_sticks_witness :
  constructed second_mailer
  /\ all_hold rest_of_checks (heap second_mailer) (this second_mailer) (VRef 9) (VRef 8) = true
  /\ XP.isVoid (prop (heap second_mailer) (VRef 9) "from") = true
  /\ default_sender (this second_mailer) = Some "robot@office.example"
  /\ default_sender (this falsy_mailer) = None
  /\ exists h2 data2,
       call_send (VRef 9) VUndefined (VRef 7)
         (World (heap (call_send (VRef 9) (VRef 8) (VRef 7) second_mailer).2)
                (this falsy_mailer) []) =
       (Normal VUndefined,
        World h2 (this falsy_mailer)
              ([] ++ [SendMail (transporter_ (this falsy_mailer)) data2 (VRef 7)]))
       /\ prop h2 data2 "from" = VStr "robot@office.example".
Proof.
  assert (constructed second_mailer) as H1 by (vm_compute; reflexivity).
  assert (all_hold rest_of_checks (heap second_mailer) (this second_mailer) (VRef 9) (VRef 8)
          = true) as H2 by (vm_compute; reflexivity).
  assert (XP.isVoid (prop (heap second_mailer) (VRef 9) "from") = true) as H3
    by (vm_compute; reflexivity).
  assert (default_sender (this second_mailer) = Some "robot@office.example") as H4
    by (vm_compute; reflexivity).
  split; [exact H1|]. split; [exact H2|]. split; [exact H3|]. split; [exact H4|].
  split; [vm_compute; reflexivity|].
  apply (send_substitution_sticks second_mailer (VRef 9) (VRef 8) (VRef 7)
           "robot@office.example"
           (World (heap (call_send (VRef 9) (VRef 8) (VRef 7) second_mailer).2)
                  (this falsy_mailer) [])
           VUndefined (VRef 7) H1 H2 H3 H4).
  - vm_compute. reflexivity.
  - reflexivity.
  - vm_compute. reflexivity.
Defined.

(** X5 on the sample data: the mailer made from the record 3, after the
    message 9 went through it. *)
Lemma instance_invariant_witness :
  reachable (call_send (VRef 9) (VRef 8) (VRef 7) office_mailer).2
  /\ hostname_ (this (call_send (VRef 9) (VRef 8) (VRef 7) office_mailer).2)
     = VStr "smtp.office.example"
  /\ exists b, secure_ (this (call_send (VRef 9) (VRef 8) (VRef 7) office_mailer).2) = VBool b.
Proof.
  assert (reachable (call_send (VRef 9) (VRef 8) (VRef 7) office_mailer).2) as H.
  { apply (reach_send office_mailer (VRef 9) (VRef 8) (VRef 7)
             (call_send (VRef 9) (VRef 8) (VRef 7) office_mailer).1).
    - apply (reach_new (World office_store blank []) (VRef 3) VUndefined).
      vm_compute. reflexivity.
    - apply surjective_pairing. }
  split; [exact H|]. split; [vm_compute; reflexivity|].
  exact (proj1 (proj2 (proj2 (proj2 (proj2 (proj2 (instance_invariant _ H))))))).
Defined.

(** X7 on the sample data: the record 4 gives the empty string as
    [hostname] and [name], 0 as [port] and the empty string as [secure]. *)
Lemma new_normalises_witness :
  new_XPMailer (VRef 4) (World office_store blank []) = (Normal VUndefined, falsy_mailer)
  /\ hostname_ (this falsy_mailer) = VStr "localhost"
  /\ name_ (this falsy_mailer) = VNull
  /\ port_ (this falsy_mailer) = VNull
  /\ secure_ (this falsy_mailer) = VBool false.
Proof.
  assert (new_XPMailer (VRef 4) (World office_store blank []) = (Normal VUndefined, falsy_mailer))
    as H by (vm_compute; reflexivity).
  split; [exact H|].
  destruct (new_normalises _ _ _ _ H) as (_ & Hh & Hn & _ & Hp & Hs & _).
  split; [exact (eq_trans Hh eq_refl)|]. split; [exact (eq_trans Hn eq_refl)|].
  split; [exact (eq_trans Hp eq_refl) | exact (eq_trans Hs eq_refl)].
Defined.

(** X8 on the sample data: the record 5 has the string "587" as [port]. *)
Lemma new_reports_first_invalid_witness :
  XP.isVoid (VRef 5) = false
  /\ first_invalid office_store (VRef 5) = Some port
  /\ (new_XPMailer (VRef 5) (World office_store blank [])).1
     = Thrown (ValidationError "port" "number")
  /\ heap (new_XPMailer (VRef 5) (World office_store blank [])).2 = office_store
  /\ trace (new_XPMailer (VRef 5) (World office_store blank [])).2 = [].
Proof.
  split; [reflexivity|]. split; [vm_compute; reflexivity|].
  apply (new_reports_first_invalid (VRef 5) (World office_store blank []) port);
    [reflexivity | vm_compute; reflexivity].
Defined.

(** X9 on the sample data: the transport of the mailer made from the
    record 3. *)
Lemma new_creates_transport_witness :
  new_XPMailer (VRef 3) (World office_store blank []) = (Normal VUndefined, office_mailer)
  /\ exists o t,
       trace office_mailer = [] ++ [CreateTransport (VRef o) (VRef t)]
       /\ transporter_ (this office_mailer) = VRef t
       /\ o <> t /\ office_store !! o = None /\ office_store !! t = None
       /\ kind_at (heap office_mailer) (VRef o) = Some KObject
       /\ prop (heap office_mailer) (VRef o) "auth" = auth_ (this office_mailer)
       /\ prop (heap office_mailer) (VRef o) "host" = hostname_ (this office_mailer)
       /\ prop (heap office_mailer) (VRef o) "name" = name_ (this office_mailer)
       /\ prop (heap office_mailer) (VRef o) "port" = port_ (this office_mailer)
       /\ prop (heap office_mailer) (VRef o) "secure" = secure_ (this office_mailer)
       /\ prop (heap office_mailer) (VRef o) "tls" = tls_ (this office_mailer)
       /\ prop (heap office_mailer) (VRef o) "hostname" = VUndefined
       /\ prop (heap office_mailer) (VRef o) "noreply" = VUndefined.
Proof.
  assert (new_XPMailer (VRef 3) (World office_store blank []) = (Normal VUndefined, office_mailer))
    as H by (vm_compute; reflexivity).
  split; [exact H|].
  exact (new_creates_transport (VRef 3) (World office_store blank []) VUndefined office_mailer H).
Defined.

(** X10 on the sample data: [initialize] with the record 4 on the mailer
    made from the record 3. *)
Lemma initialize_again_witness :
  reachable office_mailer
  /\ function (initialize (VRef 4)) office_mailer =
     (Normal VUndefined, (function (initialize (VRef 4)) office_mailer).2)
  /\ transporter_ (this (function (initialize (VRef 4)) office_mailer).2)
     = transporter_ (this office_mailer)
  /\ exists o t,
       trace (function (initialize (VRef 4)) office_mailer).2
       = trace office_mailer ++ [CreateTransport o t]
       /\ t <> transporter_ (this office_mailer)
       /\ kind_at (heap office_mailer) t = None.
Proof.
  assert (reachable office_mailer) as H1.
  { apply (reach_new (World office_store blank []) (VRef 3) VUndefined).
    vm_compute. reflexivity. }
  assert (function (initialize (VRef 4)) office_mailer =
          (Normal VUndefined, (function (initialize (VRef 4)) office_mailer).2)) as H2
    by (vm_compute; reflexivity).
  split; [exact H1|]. split; [exact H2|].
  exact (initialize_again office_mailer (VRef 4) VUndefined _ H1 H2).
Defined.

(** X11 on the sample data: the message 9 has no [from]. *)
Lemma earlier_send_missing_from_witness :
  XP.isObject (heap office_mailer) (VRef 9) = true
  /\ non_empty_string (prop (heap office_mailer) (VRef 9) "from") = false
  /\ function (lib_index.send (VRef 9) (VRef 8) (VRef 7)) office_mailer =
     (Normal VUndefined,
      World (heap office_mailer) (this office_mailer)
            (trace office_mailer ++
             [Call (VRef 7) [VErr (XPError 500 (quoted "email.from" +:+ " must be string."))]])).
Proof.
  split; [vm_compute; reflexivity|]. split; [vm_compute; reflexivity|].
  apply (earlier_send_missing_from office_mailer (VRef 9) (VRef 8) (VRef 7));
    vm_compute; reflexivity.
Defined.

(** X12 on the sample data: the mailer without [noreply]; the message 10
    is in order, the message 6 has a number as [cc]. *)
Lemma classes_agree_without_default_witness :
  constructed plain_mailer
  /\ default_sender (this plain_mailer) = None
  /\ rejection (heap plain_mailer) (this plain_mailer) (VRef 10) VUndefined = None
  /\ function (lib_index.send (VRef 10) VUndefined (VRef 4)) plain_mailer =
     call_send (VRef 10) VUndefined (VRef 4) plain_mailer
  /\ rejection (heap plain_mailer) (this plain_mailer) (VRef 6) VUndefined
     = Some (ValidationError "mail.cc" "string")
  /\ exists c msg,
       function (lib_index.send (VRef 6) VUndefined (VRef 4)) plain_mailer =
       (Normal VUndefined,
        World (heap plain_mailer) (this plain_mailer)
              (trace plain_mailer ++ [Call (VRef 4) [VErr (XPError c msg)]])).
Proof.
  assert (constructed plain_mailer) as H1 by (vm_compute; reflexivity).
  assert (default_sender (this plain_mailer) = None) as H2 by (vm_compute; reflexivity).
  assert (rejection (heap plain_mailer) (this plain_mailer) (VRef 10) VUndefined = None) as H3
    by (vm_compute; reflexivity).
  assert (rejection (heap plain_mailer) (this plain_mailer) (VRef 6) VUndefined
          = Some (ValidationError "mail.cc" "string")) as H4 by (vm_compute; reflexivity).
  split; [exact H1|]. split; [exact H2|]. split; [exact H3|].
  split; [exact (proj1 (classes_agree_without_default plain_mailer (VRef 10) VUndefined (VRef 4)
                          H1 H2) H3)|].
  split; [exact H4|].
  exact (proj2 (classes_agree_without_default plain_mailer (VRef 6) VUndefined (VRef 4) H1 H2)
               _ H4).
Defined.

(** X13 on the sample data: the message 10 through the earlier [send]. *)
Lemma earlier_send_writes_nothing_witness :
  constructed plain_mailer
  /\ this (function (lib_index.send (VRef 10) VUndefined (VRef 4)) plain_mailer).2
     = this plain_mailer
  /\ forall l c, heap plain_mailer !! l = Some c ->
       heap (function (lib_index.send (VRef 10) VUndefined (VRef 4)) plain_mailer).2 !! l
       = Some c.
Proof.
  assert (constructed plain_mailer) as H1 by (vm_compute; reflexivity).
  split; [exact H1|].
  exact (earlier_send_writes_nothing plain_mailer (VRef 10) VUndefined (VRef 4) H1).
Defined.

(** X14 on the sample data: the record 3 names a [noreply] address. *)
Lemma earlier_new_alike_witness :
  new_XPMailer (VRef 3) (World office_store blank []) = (Normal VUndefined, office_mailer)
  /\ noreply_ (this office_mailer) = VStr "robot@office.example"
  /\ earlier_new (VRef 3) (World office_store blank []) =
     (Normal VUndefined,
      World (heap office_mailer) (set_slot noreply VUndefined (this office_mailer))
            (trace office_mailer)).
Proof.
  assert (new_XPMailer (VRef 3) (World office_store blank []) = (Normal VUndefined, office_mailer))
    as H by (vm_compute; reflexivity).
  split; [exact H|]. split; [vm_compute; reflexivity|].
  exact (earlier_new_alike (VRef 3) (World office_store blank []) VUndefined office_mailer H).
Defined.

(** X15 on the sample data: the mailer made from the record 4 holds [null]
    as its port; the assignment of 587 is ignored, and so is the port 465
    of the record 3 in a further run of [initialize]. *)
Lemma configuration_immutable_witness :
  reachable falsy_mailer
  /\ port_ (this falsy_mailer) = VNull
  /\ assign descriptor port (lit (VNum (Dyadic 587 0))) falsy_mailer = (Normal tt, falsy_mailer)
  /\ prop (heap falsy_mailer) (VRef 3) "port" = VNum (Dyadic 465 0)
  /\ port_ (this (function (initialize (VRef 3)) falsy_mailer).2) = port_ (this falsy_mailer).
Proof.
  assert (reachable falsy_mailer) as H.
  { apply (reach_new (World office_store blank []) (VRef 4) VUndefined).
    vm_compute. reflexivity. }
  split; [exact H|]. split; [vm_compute; reflexivity|].
  split; [exact (proj1 (proj2 (configuration_immutable falsy_mailer H)) port _)|].
  split; [vm_compute; reflexivity|].
  exact (proj2 (proj2 (configuration_immutable falsy_mailer H)) (VRef 3) port).
Defined.

(** X16 on the sample data: the mailer made from the record 4 has no
    default sender; after the assignment of an address to [noreply] the
    message 9, which has no [from], is still refused. *)
Lemma late_default_sender_ignored_witness :
  reachable falsy_mailer
  /\ default_sender (this falsy_mailer) = None
  /\ all_hold rest_of_checks (heap falsy_mailer) (this falsy_mailer) (VRef 9) (VRef 8) = true
  /\ XP.isVoid (prop (heap falsy_mailer) (VRef 9) "from") = true
  /\ exists w1,
       assign descriptor noreply (lit (VStr "late@office.example")) falsy_mailer = (Normal tt, w1)
       /\ default_sender (this w1) = None
       /\ call_send (VRef 9) (VRef 8) (VRef 7) w1 =
          (Normal VUndefined,
           World (heap w1) (this w1)
                 (trace w1 ++ [Call (VRef 7) [VErr (ValidationError "mail.from" "string")]])).
Proof.
  assert (reachable falsy_mailer) as H1.
  { apply (reach_new (World office_store blank []) (VRef 4) VUndefined).
    vm_compute. reflexivity. }
  assert (default_sender (this falsy_mailer) = None) as H2 by (vm_compute; reflexivity).
  assert (all_hold rest_of_checks (heap falsy_mailer) (this falsy_mailer) (VRef 9) (VRef 8)
          = true) as H4 by (vm_compute; reflexivity).
  assert (XP.isVoid (prop (heap falsy_mailer) (VRef 9) "from") = true) as H5
    by (vm_compute; reflexivity).
  split; [exact H1|]. split; [exact H2|]. split; [exact H4|]. split; [exact H5|].
  exact (late_default_sender_ignored falsy_mailer "late@office.example" (VRef 9) (VRef 8)
           (VRef 7) H1 H2 H4 H5).
Defined.

(** X18 on the sample data: the message 7 has a number as [bcc]. *)
Lemma earlier_send_bcc_reported_as_cc_witness :
  XP.isObject (heap plain_mailer) (VRef 7) = true
  /\ optional_string (prop (heap plain_mailer) (VRef 7) "bcc") = false
  /\ function (lib_index.send (VRef 7) VUndefined (VRef 4)) plain_mailer =
     (Normal VUndefined,
      World (heap plain_mailer) (this plain_mailer)
            (trace plain_mailer ++
             [Call (VRef 4) [VErr (XPError 500 (quoted "email.cc" +:+ " must be string."))]])).
Proof.
  split; [vm_compute; reflexivity|]. split; [vm_compute; reflexivity|].
  apply (earlier_send_bcc_reported_as_cc plain_mailer (VRef 7) VUndefined (VRef 4));
    vm_compute; reflexivity.
Defined.
